(** * Complex Event Processing agent: a shallow embedding of [cep_agent.py]

    The development follows the layout of the Python module: the two enums,
    the [Event] and [Pattern] data classes, then the [CEPAgent] class with
    its methods in source order.  Methods that mutate the agent, read the
    wall clock, log or call user code are written in a small state and
    exception monad over a [World]; the theorems about them come last. *)

From Stdlib Require Import ZArith Lia Bool.
From stdpp Require Import gmap strings list fin_maps.

Local Open Scope string_scope.
Local Open Scope list_scope.
Local Open Scope Z_scope.

(* ===================================================================== *)
(** ** Python values the module relies on                                 *)
(* ===================================================================== *)

(** [datetime] and [timedelta] are counts of microseconds: a [datetime] is
    the offset from 0001-01-01T00:00:00, the smallest value of the type, and
    it is representable up to 9999-12-31T23:59:59.999999.  All timestamps
    are naive, as [datetime.now()] returns them. *)
Definition datetime := Z.
Definition timedelta := Z.

Definition DATETIME_MAX : datetime := 3652059 * 86400000000 - 1.

Definition datetime_ok (d : datetime) : bool := (0 <=? d) && (d <=? DATETIME_MAX).

Definition minutes (n : Z) : timedelta := n * 60000000.

(** Exceptions.  [IndexError], [OverflowError] and [ValueError] are raised by
    the interpreter; [UserException] stands for any exception derived from
    [Exception] that a condition or an action raises, [UserBaseException] for
    one derived from [BaseException] only (KeyboardInterrupt, SystemExit). *)
Inductive exn : Type :=
  | IndexError (msg : string)
  | OverflowError (msg : string)
  | ValueError (msg : string)
  | UserException (msg : string)
  | UserBaseException (msg : string).

(** What [except Exception] catches. *)
Definition is_Exception (e : exn) : bool :=
  match e with
  | UserBaseException _ => false
  | _ => true
  end.

(** [str(e)] *)
Definition exn_str (e : exn) : string :=
  match e with
  | IndexError m | OverflowError m | ValueError m
  | UserException m | UserBaseException m => m
  end.

Inductive outcome (A : Type) : Type :=
  | Returned (a : A)
  | Raised (e : exn).
Arguments Returned {A} a.
Arguments Raised {A} e.

(** [datetime - timedelta]: OverflowError when the result leaves the range. *)
Definition datetime_sub (d : datetime) (td : timedelta) : outcome datetime :=
  if datetime_ok (d - td) then Returned (d - td)
  else Raised (OverflowError "date value out of range").

(** The slice [l[start:]] for an integer [start]: a negative start counts
    from the end and is clamped at the front, a non-negative one is clamped
    at the length. *)
Definition py_slice_from {A} (start : Z) (l : list A) : list A :=
  let len := Z.of_nat (length l) in
  let i := if start <? 0 then Z.max (len + start) 0 else Z.min start len in
  drop (Z.to_nat i) l.

(** [l[i]] for an integer [i]; a negative index counts from the end. *)
Definition py_index {A} (l : list A) (i : Z) : outcome A :=
  let len := Z.of_nat (length l) in
  let j := if i <? 0 then len + i else i in
  if (j <? 0) || (len <=? j) then Raised (IndexError "list index out of range")
  else match l !! Z.to_nat j with
       | Some x => Returned x
       | None => Raised (IndexError "list index out of range")
       end.

(** A [dict] with string keys, in insertion order: assigning to a key that is
    present keeps its position, a new key goes last. *)
Fixpoint dict_setitem {V} (k : string) (v : V) (d : list (string * V)) : list (string * V) :=
  match d with
  | [] => [(k, v)]
  | (k', v') :: d' =>
      if String.eqb k' k then (k, v) :: d' else (k', v') :: dict_setitem k v d'
  end.

Fixpoint dict_getitem {V} (k : string) (d : list (string * V)) : option V :=
  match d with
  | [] => None
  | (k', v') :: d' => if String.eqb k' k then Some v' else dict_getitem k d'
  end.

Definition dict_values {V} (d : list (string * V)) : list V := map snd d.
Definition dict_keys {V} (d : list (string * V)) : list string := map fst d.

(** [collections.deque(maxlen=n)]: [append] adds on the right and, when the
    length then exceeds [maxlen], drops one element on the left. *)
Record deque (A : Type) : Type := mk_deque {
  maxlen : Z;
  items : list A
}.
Arguments mk_deque {A} maxlen items.
Arguments maxlen {A} d.
Arguments items {A} d.

Definition deque_new {A} (n : Z) : outcome (deque A) :=
  if n <? 0 then Raised (ValueError "maxlen must be non-negative")
  else Returned (mk_deque n []).

Definition deque_append {A} (d : deque A) (x : A) : deque A :=
  let l := items d ++ [x] in
  mk_deque (maxlen d)
           (if maxlen d <? Z.of_nat (length l) then tail l else l).

Definition deque_clear {A} (d : deque A) : deque A := mk_deque (maxlen d) [].

(* ===================================================================== *)
(** ** Enums and data classes                                             *)
(* ===================================================================== *)

Inductive EventType : Type :=
  | SENSOR_READING
  | ALERT
  | STATUS_CHANGE
  | THRESHOLD_BREACH
  | SYSTEM_EVENT.

Definition EventType_value (t : EventType) : string :=
  match t with
  | SENSOR_READING => "sensor_reading"
  | ALERT => "alert"
  | STATUS_CHANGE => "status_change"
  | THRESHOLD_BREACH => "threshold_breach"
  | SYSTEM_EVENT => "system_event"
  end.

Inductive EventPriority : Type :=
  | LOW
  | MEDIUM
  | HIGH
  | CRITICAL.

Definition EventPriority_name (p : EventPriority) : string :=
  match p with
  | LOW => "LOW"
  | MEDIUM => "MEDIUM"
  | HIGH => "HIGH"
  | CRITICAL => "CRITICAL"
  end.

Definition EventPriority_value (p : EventPriority) : Z :=
  match p with
  | LOW => 1
  | MEDIUM => 2
  | HIGH => 3
  | CRITICAL => 4
  end.

#[global] Instance EventType_eq_dec : EqDecision EventType.
Proof. solve_decision. Defined.

#[global] Instance EventPriority_eq_dec : EqDecision EventPriority.
Proof. solve_decision. Defined.

(** The payload [data : Dict[str, Any]] is opaque to the agent; its values
    are kept as integers. *)
Record Event : Type := mk_Event {
  event_id : string;
  event_type : EventType;
  timestamp : datetime;
  source : string;
  data : list (string * Z);
  priority : EventPriority;
  processed : bool
}.

(** [condition] and [action] are user code: they return or raise.  They are
    functions of the event list they receive and do not reach back into the
    agent. *)
Record Pattern : Type := mk_Pattern {
  pattern_id : string;
  name : string;
  event_types : list EventType;
  time_window : timedelta;
  condition : list Event -> outcome bool;
  action : list Event -> outcome unit;
  description : string
}.

(** The dict built by [_handle_pattern_match], one field per key
    ("pattern_id", "pattern_name", "timestamp", "matching_events",
    "description"); the timestamp is kept as the instant whose ISO rendering
    the source stores. *)
Record PatternDetection : Type := mk_PatternDetection {
  det_pattern_id : string;
  det_pattern_name : string;
  det_timestamp : datetime;
  det_matching_events : list string;
  det_description : string
}.

(** [self.statistics], one field per key. *)
Record Statistics : Type := mk_Statistics {
  total_events : Z;
  events_by_type : gmap string Z;
  events_by_priority : gmap string Z;
  patterns_detected : Z
}.

Record CEPAgent : Type := mk_CEPAgent {
  event_buffer : deque Event;
  patterns : list (string * Pattern);
  detected_patterns : list PatternDetection;
  statistics : Statistics;
  is_running : bool
}.

(** Arguments to [get_events] as a caller may pass them: Python checks no
    annotation, so a filter can be any of these. *)
Inductive pyvalue : Type :=
  | PyNone
  | PyEventType (t : EventType)
  | PyEventPriority (p : EventPriority)
  | PyStr (s : string)
  | PyInt (z : Z).

(** Truth value: [None], the empty string and 0 are false; enum members are
    true. *)
Definition truthy (v : pyvalue) : bool :=
  match v with
  | PyNone => false
  | PyEventType _ => true
  | PyEventPriority _ => true
  | PyStr s => negb (String.eqb s EmptyString)
  | PyInt z => negb (z =? 0)
  end.

(** [==]: an enum member equals only itself, never its value or its name. *)
Definition py_eq (a b : pyvalue) : bool :=
  match a, b with
  | PyNone, PyNone => true
  | PyEventType x, PyEventType y => bool_decide (x = y)
  | PyEventPriority x, PyEventPriority y => bool_decide (x = y)
  | PyStr x, PyStr y => String.eqb x y
  | PyInt x, PyInt y => x =? y
  | _, _ => false
  end.

(* ===================================================================== *)
(** ** The world a method runs in                                         *)
(* ===================================================================== *)

Inductive LogLevel : Type := INFO | WARNING | ERROR.

(** What the agent does to its surroundings: log lines, and calls of a
    pattern's condition or action with the list passed to it. *)
Inductive Effect : Type :=
  | Log (level : LogLevel) (msg : string)
  | CallCondition (pid : string) (events : list Event)
  | CallAction (pid : string) (events : list Event).

(** [clock n] is what the [n]-th call of [datetime.now()] returns. *)
Record World : Type := mk_World {
  self : CEPAgent;
  clock : nat -> datetime;
  ticks : nat;
  trace : list Effect
}.

Definition M (A : Type) : Type := World -> outcome A * World.

Definition ret {A} (a : A) : M A := fun w => (Returned a, w).

Definition raise {A} (e : exn) : M A := fun w => (Raised e, w).

Definition bind {A B} (m : M A) (k : A -> M B) : M B :=
  fun w =>
    match m w with
    | (Returned a, w') => k a w'
    | (Raised e, w') => (Raised e, w')
    end.

Notation "'let*' x ':=' m 'in' k" := (bind m (fun x => k))
  (at level 10, x name, m at level 100, k at level 200, only parsing).
Notation "m ;; k" := (bind m (fun _ => k))
  (at level 100, k at level 200, right associativity, only parsing).

Definition lift {A} (o : outcome A) : M A := fun w => (o, w).

(** [try: body except Exception as e: handler(e)] *)
Definition try_except {A} (body : M A) (handler : exn -> M A) : M A :=
  fun w =>
    match body w with
    | (Raised e, w') => if is_Exception e then handler e w' else (Raised e, w')
    | r => r
    end.

Fixpoint for_each {A} (l : list A) (body : A -> M unit) : M unit :=
  match l with
  | [] => ret tt
  | x :: l' => body x ;; for_each l' body
  end.

Definition get_self : M CEPAgent := fun w => (Returned (self w), w).

Definition modify_self (f : CEPAgent -> CEPAgent) : M unit :=
  fun w => (Returned tt, mk_World (f (self w)) (clock w) (ticks w) (trace w)).

Definition emit (e : Effect) : M unit :=
  fun w => (Returned tt, mk_World (self w) (clock w) (ticks w) (trace w ++ [e])).

(** [datetime.now()] *)
Definition now : M datetime :=
  fun w => (Returned (clock w (ticks w)),
            mk_World (self w) (clock w) (S (ticks w)) (trace w)).

Definition logger_info (msg : string) : M unit := emit (Log INFO msg).
Definition logger_error (msg : string) : M unit := emit (Log ERROR msg).

(** Field assignments on [self] and on [self.statistics]. *)
Definition set_event_buffer (b : deque Event) (a : CEPAgent) : CEPAgent :=
  mk_CEPAgent b (patterns a) (detected_patterns a) (statistics a) (is_running a).
Definition set_patterns (p : list (string * Pattern)) (a : CEPAgent) : CEPAgent :=
  mk_CEPAgent (event_buffer a) p (detected_patterns a) (statistics a) (is_running a).
Definition set_detected_patterns (d : list PatternDetection) (a : CEPAgent) : CEPAgent :=
  mk_CEPAgent (event_buffer a) (patterns a) d (statistics a) (is_running a).
Definition set_statistics (s : Statistics) (a : CEPAgent) : CEPAgent :=
  mk_CEPAgent (event_buffer a) (patterns a) (detected_patterns a) s (is_running a).
Definition set_is_running (b : bool) (a : CEPAgent) : CEPAgent :=
  mk_CEPAgent (event_buffer a) (patterns a) (detected_patterns a) (statistics a) b.

Definition set_total_events (n : Z) (s : Statistics) : Statistics :=
  mk_Statistics n (events_by_type s) (events_by_priority s) (patterns_detected s).
Definition set_events_by_type (m : gmap string Z) (s : Statistics) : Statistics :=
  mk_Statistics (total_events s) m (events_by_priority s) (patterns_detected s).
Definition set_events_by_priority (m : gmap string Z) (s : Statistics) : Statistics :=
  mk_Statistics (total_events s) (events_by_type s) m (patterns_detected s).
Definition set_patterns_detected (n : Z) (s : Statistics) : Statistics :=
  mk_Statistics (total_events s) (events_by_type s) (events_by_priority s) n.

(** [d.get(k, 0)] *)
Definition dict_get0 (m : gmap string Z) (k : string) : Z := default 0 (m !! k).

(* ===================================================================== *)
(** ** [Pattern.matches]                                                  *)
(* ===================================================================== *)

Definition call_condition (p : Pattern) (events : list Event) : M bool :=
  emit (CallCondition (pattern_id p) events) ;;
  lift (condition p events).

Definition call_action (p : Pattern) (events : list Event) : M unit :=
  emit (CallAction (pattern_id p) events) ;;
  lift (action p events).

Definition matches (p : Pattern) (events : list Event) : M bool :=
  if (length events <? length (event_types p))%nat then ret false
  else
    let* e_last := lift (py_index events (-1)) in
    let* e_first := lift (py_index events 0) in
    if timestamp e_last - timestamp e_first >? time_window p then ret false
    else
      let event_type_sequence := map event_type events in
      if negb (bool_decide
                 (py_slice_from (- Z.of_nat (length (event_types p))) event_type_sequence
                  = event_types p))
      then ret false
      else call_condition p events.

(* ===================================================================== *)
(** ** [CEPAgent]                                                         *)
(* ===================================================================== *)

(** [CEPAgent(buffer_size)]; the default of [buffer_size] is 1000. *)
Definition CEPAgent_init (buffer_size : Z) : outcome CEPAgent :=
  match deque_new buffer_size with
  | Raised e => Raised e
  | Returned d => Returned (mk_CEPAgent d [] [] (mk_Statistics 0 ∅ ∅ 0) false)
  end.

Definition register_pattern (pattern : Pattern) : M unit :=
  modify_self (fun a =>
    set_patterns (dict_setitem (pattern_id pattern) pattern (patterns a)) a) ;;
  logger_info ("Registered pattern: " +:+ name pattern).

Definition _get_recent_events (tw : timedelta) : M (list Event) :=
  let* a := get_self in
  match items (event_buffer a) with
  | [] => ret []
  | _ =>
      let* t := now in
      let* cutoff_time := lift (datetime_sub t tw) in
      ret (filter (fun e => cutoff_time <= timestamp e) (items (event_buffer a)))
  end.

Definition _handle_pattern_match (pattern : Pattern) (matching_events : list Event) : M unit :=
  let* t := now in
  let pattern_detection :=
    mk_PatternDetection (pattern_id pattern) (name pattern) t
                        (map event_id matching_events) (description pattern) in
  modify_self (fun a =>
    set_detected_patterns (detected_patterns a ++ [pattern_detection]) a) ;;
  modify_self (fun a =>
    set_statistics
      (set_patterns_detected (patterns_detected (statistics a) + 1) (statistics a)) a) ;;
  logger_info ("Pattern detected: " +:+ name pattern) ;;
  try_except (call_action pattern matching_events)
    (fun e => logger_error ("Error executing pattern action: " +:+ exn_str e)).

Definition _check_pattern (pattern : Pattern) : M unit :=
  let* recent_events := _get_recent_events (time_window pattern) in
  let* m := matches pattern recent_events in
  if m then _handle_pattern_match pattern recent_events else ret tt.

Definition _check_patterns : M unit :=
  let* a := get_self in
  for_each (dict_values (patterns a)) _check_pattern.

Definition add_event (event : Event) : M unit :=
  modify_self (fun a => set_event_buffer (deque_append (event_buffer a) event) a) ;;
  modify_self (fun a =>
    set_statistics (set_total_events (total_events (statistics a) + 1) (statistics a)) a) ;;
  let event_type_key := EventType_value (event_type event) in
  modify_self (fun a =>
    set_statistics
      (set_events_by_type
         (<[event_type_key := dict_get0 (events_by_type (statistics a)) event_type_key + 1]>
            (events_by_type (statistics a)))
         (statistics a)) a) ;;
  let priority_key := EventPriority_name (priority event) in
  modify_self (fun a =>
    set_statistics
      (set_events_by_priority
         (<[priority_key := dict_get0 (events_by_priority (statistics a)) priority_key + 1]>
            (events_by_priority (statistics a)))
         (statistics a)) a) ;;
  logger_info ("Event added: " +:+ event_id event +:+ " - " +:+ EventType_value (event_type event)) ;;
  _check_patterns.

(** [get_events(event_type, priority, limit)]; the defaults are [None],
    [None] and 100. *)
Definition get_events (et : pyvalue) (pr : pyvalue) (limit : Z) : M (list Event) :=
  let* a := get_self in
  let events := items (event_buffer a) in
  let events :=
    if truthy et
    then filter (fun e => py_eq (PyEventType (event_type e)) et = true) events
    else events in
  let events :=
    if truthy pr
    then filter (fun e => py_eq (PyEventPriority (priority e)) pr = true) events
    else events in
  ret (py_slice_from (- limit) events).

(** [self.statistics.copy()] *)
Definition get_statistics : M Statistics :=
  let* a := get_self in ret (statistics a).

Definition get_detected_patterns (limit : Z) : M (list PatternDetection) :=
  let* a := get_self in ret (py_slice_from (- limit) (detected_patterns a)).

Definition clear_buffer : M unit :=
  modify_self (fun a => set_event_buffer (deque_clear (event_buffer a)) a) ;;
  logger_info "Event buffer cleared".

Definition stop_monitoring : M unit :=
  modify_self (set_is_running false) ;;
  logger_info "CEP Agent monitoring stopped".

(** [create_example_patterns].  Temperatures are integers here;
    [max(values)] and [min(values)] are only reached with two events or more. *)
Definition py_max (l : list Z) : Z :=
  match l with
  | [] => 0
  | x :: l' => fold_left Z.max l' x
  end.

Definition py_min (l : list Z) : Z :=
  match l with
  | [] => 0
  | x :: l' => fold_left Z.min l' x
  end.

Definition temperature_spike_condition (events : list Event) : outcome bool :=
  if (length events <? 2)%nat then Returned false
  else
    let values := map (fun e => default 0 (dict_getitem "temperature" (data e))) events in
    Returned (py_max values - py_min values >? 10).

(** The two actions only write a log line, which the model of user code does
    not record. *)
Definition temperature_spike_action (events : list Event) : outcome unit :=
  Returned tt.

Definition pattern1 : Pattern :=
  mk_Pattern "temp_spike_01" "Temperature Spike"
             [SENSOR_READING; SENSOR_READING] (minutes 5)
             temperature_spike_condition temperature_spike_action
             "Detects rapid temperature changes".

Definition critical_sequence_condition (events : list Event) : outcome bool :=
  Returned (existsb (fun e => bool_decide (priority e = CRITICAL)) events).

Definition critical_sequence_action (events : list Event) : outcome unit :=
  Returned tt.

Definition pattern2 : Pattern :=
  mk_Pattern "critical_seq_01" "Critical Event Sequence"
             [ALERT; THRESHOLD_BREACH] (minutes 2)
             critical_sequence_condition critical_sequence_action
             "Detects critical alert sequences".

(* ===================================================================== *)
(** ** Vocabulary of the statements                                       *)
(* ===================================================================== *)

(** Running a method: the world it leaves and what it returned or raised. *)
Definition exec {A} (m : M A) (w : World) : World := snd (m w).
Definition eval {A} (m : M A) (w : World) : outcome A := fst (m w).

(** The buffered events of a world, oldest first. *)
Definition buffer (w : World) : list Event := items (event_buffer (self w)).
Definition stats (w : World) : Statistics := statistics (self w).

(** A world around a given agent: clock [clk], no reading taken, empty trace. *)
Definition world_of (a : CEPAgent) (clk : nat -> datetime) : World :=
  mk_World a clk 0%nat [].

(** The world after one reading of the clock. *)
Definition ticked (w : World) : World :=
  mk_World (self w) (clock w) (S (ticks w)) (trace w).

(** The trailing slice of the specification: the last [n] elements, all of
    them when there are fewer. *)
Definition trailing {A} (n : nat) (l : list A) : list A :=
  drop (length l - n)%nat l.

(** The three structural tests of [matches], before the condition is
    consulted: enough events, span within the window, types of the slice. *)
Definition structural_checks (p : Pattern) (events : list Event) : bool :=
  negb (length events <? length (event_types p))%nat &&
  match last events, head events with
  | Some e_last, Some e_first =>
      negb (timestamp e_last - timestamp e_first >? time_window p)
  | _, _ => false
  end &&
  bool_decide (py_slice_from (- Z.of_nat (length (event_types p)))
                             (map event_type events) = event_types p).

(** Sum of the values of a counter dict. *)
Definition dict_sum (m : gmap string Z) : Z :=
  map_fold (fun _ v acc => v + acc) 0 m.

(** Calls a client makes on an agent.  A call that raises leaves the agent as
    the method left it, and the client goes on with the next call. *)
Inductive call : Type :=
  | CallRegister (p : Pattern)
  | CallAdd (e : Event)
  | CallClear.

Definition run_call (c : call) (w : World) : World :=
  match c with
  | CallRegister p => exec (register_pattern p) w
  | CallAdd e => exec (add_event e) w
  | CallClear => exec clear_buffer w
  end.

Fixpoint run_calls (cs : list call) (w : World) : World :=
  match cs with
  | [] => w
  | c :: cs' => run_calls cs' (run_call c w)
  end.

(** Events passed to [add_event] by a call sequence, in call order, after
    the events [acc] passed before it. *)
Fixpoint added (acc : list Event) (cs : list call) : list Event :=
  match cs with
  | [] => acc
  | CallAdd e :: cs' => added (acc ++ [e]) cs'
  | _ :: cs' => added acc cs'
  end.

(** The same, counting only events passed since the last [clear_buffer]. *)
Fixpoint added_since_clear (acc : list Event) (cs : list call) : list Event :=
  match cs with
  | [] => acc
  | CallAdd e :: cs' => added_since_clear (acc ++ [e]) cs'
  | CallClear :: cs' => added_since_clear [] cs'
  | CallRegister _ :: cs' => added_since_clear acc cs'
  end.

(** A method keeps a relation between the world before and after it. *)
Definition keeps {A} (R : World -> World -> Prop) (m : M A) : Prop :=
  forall w, R w (exec m w).

(** What an evaluation pass leaves alone: buffer, registry, event counters,
    running flag and clock. *)
Definition pass_frame (w w' : World) : Prop :=
  event_buffer (self w') = event_buffer (self w) /\
  patterns (self w') = patterns (self w) /\
  total_events (stats w') = total_events (stats w) /\
  events_by_type (stats w') = events_by_type (stats w) /\
  events_by_priority (stats w') = events_by_priority (stats w) /\
  is_running (self w') = is_running (self w) /\
  clock w' = clock w.

(** The log line [_handle_pattern_match] writes when the action raises an
    exception that [except Exception] catches. *)
Definition action_error_log (p : Pattern) (events : list Event) : list Effect :=
  match action p events with
  | Raised e =>
      if is_Exception e
      then [Log ERROR ("Error executing pattern action: " +:+ exn_str e)]
      else []
  | Returned _ => []
  end.

(** What [_handle_pattern_match] returns: it raises only what the handler
    does not catch. *)
Definition action_outcome (p : Pattern) (events : list Event) : outcome unit :=
  match action p events with
  | Raised e => if is_Exception e then Returned tt else Raised e
  | Returned _ => Returned tt
  end.

(** Filter values [get_events] is meant for. *)
Definition is_EventType_or_None (v : pyvalue) : bool :=
  match v with PyNone | PyEventType _ => true | _ => false end.
Definition is_EventPriority_or_None (v : pyvalue) : bool :=
  match v with PyNone | PyEventPriority _ => true | _ => false end.

(** The filter of the specification: an absent filter lets every event
    through. *)
Definition spec_filter (et : option EventType) (pr : option EventPriority)
    (l : list Event) : list Event :=
  let l := match et with
           | Some t => filter (fun e => event_type e = t) l
           | None => l
           end in
  match pr with
  | Some p => filter (fun e => priority e = p) l
  | None => l
  end.

(** A filter value that is true as a condition and is not a member of the
    enum it is compared with. *)
Definition foreign_type_filter (v : pyvalue) : bool :=
  truthy v && negb (is_EventType_or_None v).
Definition foreign_priority_filter (v : pyvalue) : bool :=
  truthy v && negb (is_EventPriority_or_None v).

Definition opt_type (et : option EventType) : pyvalue :=
  match et with Some t => PyEventType t | None => PyNone end.
Definition opt_priority (pr : option EventPriority) : pyvalue :=
  match pr with Some p => PyEventPriority p | None => PyNone end.

(* ===================================================================== *)
(** ** Sample events, patterns and worlds                                 *)
(* ===================================================================== *)

(** Instants of the samples, in microseconds: a base instant [t_base] and
    offsets of whole minutes from it. *)
Definition t_base : datetime := 63000000000000000.
Definition at_minute (n : Z) : datetime := t_base + minutes n.

Definition sample_event (id : string) (t : EventType) (ts : datetime)
    (p : EventPriority) (temperature : Z) : Event :=
  mk_Event id t ts "sensor_1" [("temperature", temperature)] p false.

Definition ev_a : Event := sample_event "EVT_0000" SENSOR_READING (at_minute 0) LOW 20.
Definition ev_b : Event := sample_event "EVT_0001" SENSOR_READING (at_minute 4) HIGH 35.
Definition ev_c : Event := sample_event "EVT_0002" SENSOR_READING (at_minute 6) MEDIUM 20.
Definition ev_alert : Event := sample_event "EVT_0003" ALERT (at_minute 7) CRITICAL 20.
Definition ev_breach : Event := sample_event "EVT_0004" THRESHOLD_BREACH (at_minute 8) HIGH 20.
Definition ev_d : Event := sample_event "EVT_0005" SENSOR_READING (at_minute 8) LOW 22.

(** A threshold breach followed by an alert: the types of [pattern2] in the
    opposite order. *)
Definition ev_breach_first : Event :=
  sample_event "EVT_0006" THRESHOLD_BREACH (at_minute 7) CRITICAL 20.
Definition ev_alert_after : Event :=
  sample_event "EVT_0007" ALERT (at_minute 8) CRITICAL 20.

(** An agent with room for two events, as [CEPAgent(buffer_size=2)] builds it. *)
Definition agent_cap2 : CEPAgent :=
  mk_CEPAgent (mk_deque 2 []) [] [] (mk_Statistics 0 ∅ ∅ 0) false.

(** A clock that stands at minute 8. *)
Definition clock_8 : nat -> datetime := fun _ => at_minute 8.

Definition calls_sample : list call :=
  [CallRegister pattern2; CallAdd ev_a; CallAdd ev_b; CallAdd ev_c].

(** A pattern with nothing to match and no window. *)
Definition pattern_void : Pattern :=
  mk_Pattern "void_01" "Void" [] 0
             (fun _ => Returned true) (fun _ => Returned tt)
             "Matches nothing in particular".

(** An agent of the default capacity that has seen [ev_a], [ev_alert] and
    [ev_breach], in that order, with no pattern registered. *)
Definition agent_three : CEPAgent :=
  mk_CEPAgent (mk_deque 1000 [ev_a; ev_alert; ev_breach]) [] []
              (mk_Statistics 3
                 (<["threshold_breach" := 1]> (<["alert" := 1]> (<["sensor_reading" := 1]> ∅)))
                 (<["HIGH" := 1]> (<["CRITICAL" := 1]> (<["LOW" := 1]> ∅)))
                 0)
              false.

Definition world_three : World := world_of agent_three clock_8.

(** [get_events] asked for a type that is no [EventType] member. *)
Definition bogus_filter : pyvalue := PyStr "sensor_reading".

(** Three sensor readings in the buffer of an agent of the default capacity. *)
Definition agent_sensors : CEPAgent :=
  mk_CEPAgent (mk_deque 1000 [ev_a; ev_b; ev_c]) [] []
              (mk_Statistics 3 (<["sensor_reading" := 3]> ∅)
                 (<["MEDIUM" := 1]> (<["HIGH" := 1]> (<["LOW" := 1]> ∅))) 0)
              false.

(** The clock stands at minute 6, the timestamp of [ev_c]. *)
Definition clock_6 : nat -> datetime := fun _ => at_minute 6.

Definition world_sensors : World := world_of agent_sensors clock_6.

(** An agent that has seen [ev_b] and [ev_c] and has the temperature pattern
    of the source registered; the clock stands at minute 8. *)
Definition agent_spike : CEPAgent :=
  mk_CEPAgent (mk_deque 1000 [ev_b; ev_c])
              [("temp_spike_01", pattern1)] []
              (mk_Statistics 2 (<["sensor_reading" := 2]> ∅)
                 (<["MEDIUM" := 1]> (<["HIGH" := 1]> ∅)) 0)
              false.

Definition world_spike : World := world_of agent_spike clock_8.

(** A pattern whose condition raises, and the same agent with that pattern
    registered ahead of the temperature pattern. *)
Definition pattern_raising : Pattern :=
  mk_Pattern "raising_01" "Raising" [SENSOR_READING] (minutes 5)
             (fun _ => Raised (UserException "boom")) (fun _ => Returned tt)
             "Condition that raises".

Definition agent_raising : CEPAgent :=
  set_patterns [("raising_01", pattern_raising); ("temp_spike_01", pattern1)] agent_spike.

Definition world_raising : World := world_of agent_raising clock_8.

(** A pattern whose action raises, registered ahead of the temperature
    pattern. *)
Definition pattern_failing_action : Pattern :=
  mk_Pattern "failing_01" "Failing action" [SENSOR_READING] (minutes 5)
             (fun _ => Returned true) (fun _ => Raised (UserException "boom"))
             "Action that raises".

Definition agent_failing_action : CEPAgent :=
  set_patterns [("failing_01", pattern_failing_action); ("temp_spike_01", pattern1)]
               agent_spike.

Definition world_failing_action : World := world_of agent_failing_action clock_8.

(** The same agent once [ev_d] is in its buffer, before any evaluation. *)
Definition world_spike_full : World :=
  world_of (set_event_buffer (mk_deque 1000 [ev_b; ev_c; ev_d]) agent_spike) clock_8.

(* ===================================================================== *)
(** ** The dashboard's tally of detections                                *)
(* ===================================================================== *)

(** [render_pattern_detection] in [streamlit_app.py]: the loop that counts the
    detections it shows per pattern name,
    [pattern_counts[name] = pattern_counts.get(name, 0) + 1]. *)
Definition pattern_counts (detected : list PatternDetection) : list (string * Z) :=
  fold_left
    (fun counts d =>
       dict_setitem (det_pattern_name d)
                    (default 0 (dict_getitem (det_pattern_name d) counts) + 1)
                    counts)
    detected [].

(* ===================================================================== *)
(** ** Vocabulary of the further statements                               *)
(* ===================================================================== *)

(** [e.data.get("temperature", 0)] *)
Definition temperature_of (e : Event) : Z :=
  default 0 (dict_getitem "temperature" (data e)).

(** A detection record that a pattern of [ps] and events of [buf] account
    for: it carries the pattern's id, name and description, and the ids of a
    list of events taken in order from [buf] that passes the structural
    tests and on which the pattern's condition returned true. *)
Definition justified_by (ps : list Pattern) (buf : list Event)
    (d : PatternDetection) : Prop :=
  exists (p : Pattern) (cands : list Event),
    In p ps /\
    det_pattern_id d = pattern_id p /\
    det_pattern_name d = name p /\
    det_description d = description p /\
    det_matching_events d = map event_id cands /\
    cands `sublist_of` buf /\
    structural_checks p cands = true /\
    condition p cands = Returned true.

(** What a pass over patterns of [ps] does to the detection log: it appends
    at most [n] records, each accounted for, counts each of them, and leaves
    the rest of the agent alone. *)
Definition pass_log (ps : list Pattern) (n : nat) (w w' : World) : Prop :=
  pass_frame w w' /\
  exists new : list PatternDetection,
    detected_patterns (self w') = detected_patterns (self w) ++ new /\
    patterns_detected (stats w') = patterns_detected (stats w) + Z.of_nat (length new) /\
    (length new <= n)%nat /\
    Forall (justified_by ps (buffer w)) new.

(** A pattern that cannot make a pass fail under the clock [clk]: its type
    sequence is not empty, its condition returns, its action raises nothing
    that [except Exception] lets through, and its cutoff is an instant at
    every reading of the clock. *)
Definition well_behaved (clk : nat -> datetime) (p : Pattern) : Prop :=
  event_types p <> [] /\
  (forall events, exists b, condition p events = Returned b) /\
  (forall events e, action p events = Raised e -> is_Exception e = true) /\
  (forall n, datetime_ok (clk n - time_window p) = true).

(** What every sequence of calls keeps true of an agent. *)
Definition agent_ok (a : CEPAgent) : Prop :=
  patterns_detected (statistics a) = Z.of_nat (length (detected_patterns a)) /\
  NoDup (dict_keys (patterns a)) /\
  Forall (fun kv => fst kv = pattern_id (snd kv)) (patterns a) /\
  Forall (fun d => In (det_pattern_id d) (dict_keys (patterns a))) (detected_patterns a).

(** The number of events of a list with a given type, or priority. *)
Definition count_type (t : EventType) (l : list Event) : Z :=
  Z.of_nat (length (filter (fun e => event_type e = t) l)).
Definition count_priority (p : EventPriority) (l : list Event) : Z :=
  Z.of_nat (length (filter (fun e => priority e = p) l)).

(** The number of detections of a list with a given pattern name. *)
Definition count_name (n : string) (l : list PatternDetection) : Z :=
  Z.of_nat (length (filter (fun d => det_pattern_name d = n) l)).

(** Sum of the values of an insertion-ordered dict of counters. *)
Definition dict_total (d : list (string * Z)) : Z :=
  fold_right (fun kv acc => snd kv + acc) 0 d.

(** A call sequence that detects: the temperature pattern is registered, then
    [ev_b], [ev_c] and [ev_d] are added, the buffer is cleared and [ev_a] is
    added. *)
Definition calls_spike : list call :=
  [CallRegister pattern1; CallAdd ev_b; CallAdd ev_c; CallAdd ev_d; CallClear; CallAdd ev_a].

(** The ids of the patterns whose condition a stretch of trace shows being
    called, in call order. *)
Fixpoint condition_calls (tr : list Effect) : list string :=
  match tr with
  | [] => []
  | CallCondition pid _ :: tr' => pid :: condition_calls tr'
  | _ :: tr' => condition_calls tr'
  end.

(** A world whose registry holds the void pattern alone, over an empty
    buffer of capacity 2. *)
Definition world_void : World :=
  world_of (set_patterns [("void_01", pattern_void)] agent_cap2) clock_8.

(** [timedelta(days=n)] *)
Definition days (n : Z) : timedelta := n * 86400000000.

(* ===================================================================== *)
(** ** Reasoning about methods                                            *)
(* ===================================================================== *)

Section Keeps.
Variable R : World -> World -> Prop.
Hypothesis R_refl : forall w, R w w.
Hypothesis R_trans : forall w1 w2 w3, R w1 w2 -> R w2 w3 -> R w1 w3.

Lemma keeps_ret {A} (a : A) : keeps R (ret a).
Proof. intros w. apply R_refl. Qed.

Lemma keeps_raise {A} (e : exn) : keeps R (@raise A e).
Proof. intros w. apply R_refl. Qed.

Lemma keeps_lift {A} (o : outcome A) : keeps R (lift o).
Proof. intros w. apply R_refl. Qed.

Lemma keeps_get_self : keeps R get_self.
Proof. intros w. apply R_refl. Qed.

Lemma keeps_bind {A B} (m : M A) (k : A -> M B) :
  keeps R m -> (forall a, keeps R (k a)) -> keeps R (bind m k).
Proof.
  intros Hm Hk w. unfold exec, bind.
  specialize (Hm w). unfold exec in Hm.
  destruct (m w) as [[a | e] w1]; simpl in *.
  - eapply R_trans; [exact Hm | apply Hk].
  - exact Hm.
Qed.

Lemma keeps_try_except {A} (body : M A) (handler : exn -> M A) :
  keeps R body -> (forall e, keeps R (handler e)) -> keeps R (try_except body handler).
Proof.
  intros Hb Hh w. unfold exec, try_except.
  specialize (Hb w). unfold exec in Hb.
  destruct (body w) as [[a | e] w1]; simpl in *; [exact Hb |].
  destruct (is_Exception e); simpl; [| exact Hb].
  eapply R_trans; [exact Hb | apply Hh].
Qed.

Lemma keeps_for_each {A} (l : list A) (body : A -> M unit) :
  (forall x, keeps R (body x)) -> keeps R (for_each l body).
Proof.
  intros Hbody. induction l as [| x l IH]; simpl.
  - apply keeps_ret.
  - apply keeps_bind; [apply Hbody | intros _; exact IH].
Qed.
End Keeps.

Lemma pass_frame_refl w : pass_frame w w.
Proof. unfold pass_frame. tauto. Qed.

Lemma pass_frame_trans w1 w2 w3 : pass_frame w1 w2 -> pass_frame w2 w3 -> pass_frame w1 w3.
Proof. unfold pass_frame. intuition congruence. Qed.

Lemma keeps_frame_emit e : keeps pass_frame (emit e).
Proof. intros w. unfold pass_frame, exec, emit, stats. simpl. tauto. Qed.

Lemma keeps_frame_now : keeps pass_frame now.
Proof. intros w. unfold pass_frame, exec, now, stats. simpl. tauto. Qed.

Ltac frame_step :=
  first
    [ apply (keeps_bind _ pass_frame_trans)
    | apply (keeps_try_except _ pass_frame_trans)
    | apply (keeps_for_each _ pass_frame_refl pass_frame_trans)
    | apply (keeps_ret _ pass_frame_refl)
    | apply (keeps_lift _ pass_frame_refl)
    | apply (keeps_get_self _ pass_frame_refl)
    | apply keeps_frame_emit
    | apply keeps_frame_now
    | intro ].

Lemma keeps_frame_matches p events : keeps pass_frame (matches p events).
Proof.
  unfold matches, call_condition.
  destruct (_ <? _)%nat; [frame_step |].
  repeat frame_step.
  destruct (_ >? _); [frame_step |].
  destruct (negb _); repeat frame_step.
Qed.

Lemma keeps_frame_get_recent_events tw : keeps pass_frame (_get_recent_events tw).
Proof.
  unfold _get_recent_events. repeat frame_step.
  destruct (items _); repeat frame_step.
Qed.

Lemma keeps_frame_handle_pattern_match p events :
  keeps pass_frame (_handle_pattern_match p events).
Proof.
  unfold _handle_pattern_match, call_action, logger_info, logger_error.
  repeat frame_step;
    try (intros w; unfold pass_frame, exec, modify_self, stats; simpl; tauto).
Qed.

Lemma keeps_frame_check_pattern p : keeps pass_frame (_check_pattern p).
Proof.
  unfold _check_pattern.
  frame_step; [apply keeps_frame_get_recent_events | intros recent].
  frame_step; [apply keeps_frame_matches | intros [|]].
  - apply keeps_frame_handle_pattern_match.
  - frame_step.
Qed.

Lemma keeps_frame_check_patterns : keeps pass_frame _check_patterns.
Proof.
  unfold _check_patterns.
  frame_step; [frame_step | intros a].
  frame_step. apply keeps_frame_check_pattern.
Qed.

(* ===================================================================== *)
(** ** What each call does to buffer, registry and counters               *)
(* ===================================================================== *)

Lemma add_event_effect e w :
  let w' := exec (add_event e) w in
  event_buffer (self w') = deque_append (event_buffer (self w)) e /\
  patterns (self w') = patterns (self w) /\
  total_events (stats w') = total_events (stats w) + 1 /\
  events_by_type (stats w') =
    <[EventType_value (event_type e) :=
        dict_get0 (events_by_type (stats w)) (EventType_value (event_type e)) + 1]>
      (events_by_type (stats w)) /\
  events_by_priority (stats w') =
    <[EventPriority_name (priority e) :=
        dict_get0 (events_by_priority (stats w)) (EventPriority_name (priority e)) + 1]>
      (events_by_priority (stats w)) /\
  clock w' = clock w.
Proof.
  unfold add_event, exec, logger_info.
  cbn [bind modify_self emit fst snd].
  match goal with
  | |- context [_check_patterns ?w1] =>
      destruct (keeps_frame_check_patterns w1) as (Hb & Hp & Ht & Hty & Hpr & _ & Hc)
  end.
  unfold exec, stats in *. cbn [self statistics clock] in *.
  rewrite Hb, Hp, Ht, Hty, Hpr, Hc. cbn. tauto.
Qed.

Lemma register_pattern_run p w :
  register_pattern p w =
    (Returned tt,
     mk_World (set_patterns (dict_setitem (pattern_id p) p (patterns (self w))) (self w))
              (clock w) (ticks w)
              (trace w ++ [Log INFO ("Registered pattern: " +:+ name p)])).
Proof. reflexivity. Qed.

Lemma clear_buffer_run w :
  clear_buffer w =
    (Returned tt,
     mk_World (set_event_buffer (deque_clear (event_buffer (self w))) (self w))
              (clock w) (ticks w)
              (trace w ++ [Log INFO "Event buffer cleared"])).
Proof. reflexivity. Qed.

(** ** The bounded buffer *)

Lemma trailing_length {A} (n : nat) (l : list A) :
  length (trailing n l) = Nat.min n (length l).
Proof. unfold trailing. rewrite length_drop. lia. Qed.

Lemma trailing_all {A} (n : nat) (l : list A) :
  (length l <= n)%nat -> trailing n l = l.
Proof.
  intros H. unfold trailing.
  replace (length l - n)%nat with 0%nat by lia. apply drop_0.
Qed.

Lemma deque_append_full {A} (d : deque A) (x : A) :
  maxlen d <= Z.of_nat (length (items d)) ->
  items (deque_append d x) = tail (items d ++ [x]).
Proof.
  intros H. unfold deque_append. simpl.
  rewrite length_app. simpl.
  destruct (Z.ltb_spec (maxlen d) (Z.of_nat (length (items d) + 1))); [reflexivity | lia].
Qed.

Lemma deque_append_room {A} (d : deque A) (x : A) :
  Z.of_nat (length (items d)) < maxlen d ->
  items (deque_append d x) = items d ++ [x].
Proof.
  intros H. unfold deque_append. simpl.
  rewrite length_app. simpl.
  destruct (Z.ltb_spec (maxlen d) (Z.of_nat (length (items d) + 1))); [lia | reflexivity].
Qed.

Lemma tail_drop {A} (l : list A) : tail l = drop 1 l.
Proof. destruct l; [reflexivity | simpl; symmetry; apply drop_0]. Qed.

(** Appending to a deque that holds the last [maxlen] elements of a history
    makes it hold the last [maxlen] elements of the longer history. *)
Lemma deque_append_trailing {A} (d : deque A) (x : A) (hist : list A) :
  0 <= maxlen d ->
  items d = trailing (Z.to_nat (maxlen d)) hist ->
  items (deque_append d x) = trailing (Z.to_nat (maxlen d)) (hist ++ [x]).
Proof.
  intros Hn Hd.
  assert (Hlen : length (items d) = Nat.min (Z.to_nat (maxlen d)) (length hist))
    by (rewrite Hd; apply trailing_length).
  destruct (Z.lt_ge_cases (Z.of_nat (length (items d))) (maxlen d)) as [Hroom | Hfull].
  - rewrite deque_append_room by exact Hroom.
    rewrite Hd. rewrite !trailing_all by (rewrite ?length_app; simpl; lia).
    reflexivity.
  - rewrite deque_append_full by lia.
    rewrite Hd. unfold trailing.
    rewrite tail_drop, length_app. simpl.
    rewrite <- drop_app_le by lia.
    rewrite drop_drop. f_equal. lia.
Qed.

Lemma run_calls_buffer (cs : list call) :
  forall (w : World) (since hist : list Event),
    0 <= maxlen (event_buffer (self w)) ->
    buffer w = trailing (Z.to_nat (maxlen (event_buffer (self w)))) since ->
    total_events (stats w) = Z.of_nat (length hist) ->
    let w' := run_calls cs w in
    maxlen (event_buffer (self w')) = maxlen (event_buffer (self w)) /\
    buffer w' = trailing (Z.to_nat (maxlen (event_buffer (self w))))
                         (added_since_clear since cs) /\
    total_events (stats w') = Z.of_nat (length (added hist cs)).
Proof.
  induction cs as [| c cs IH]; intros w since hist Hn Hbuf Htot; simpl.
  - auto.
  - destruct c as [p | e |]; simpl.
    + unfold exec. rewrite register_pattern_run. cbn [snd].
      match goal with
      | |- context [run_calls cs ?w1] => exact (IH w1 since hist Hn Hbuf Htot)
      end.
    + destruct (add_event_effect e w) as (Hb & _ & Ht & _).
      assert (Hm : maxlen (event_buffer (self (exec (add_event e) w)))
                   = maxlen (event_buffer (self w)))
        by (rewrite Hb; reflexivity).
      rewrite <- Hm.
      apply IH.
      * rewrite Hm. exact Hn.
      * unfold buffer. rewrite Hm, Hb.
        apply deque_append_trailing; assumption.
      * rewrite Ht, Htot, length_app. simpl. lia.
    + unfold exec. rewrite clear_buffer_run. cbn [snd].
      match goal with
      | |- context [run_calls cs ?w1] => apply (IH w1 [] hist Hn); [| exact Htot]
      end.
      unfold buffer, trailing. cbn. now rewrite drop_nil.
Qed.

(** Without a [clear_buffer] in the sequence, the events added since the
    last clear are all the events added. *)
Lemma added_since_clear_no_clear (cs : list call) :
  forall acc : list Event,
    Forall (fun c => c <> CallClear) cs ->
    added_since_clear acc cs = added acc cs.
Proof.
  induction cs as [| c cs IH]; intros acc Hall; [reflexivity |].
  inversion Hall as [| c' cs' Hc Hcs]; subst.
  destruct c as [p | e |]; simpl; [now apply IH | now apply IH | congruence].
Qed.

Lemma CEPAgent_init_inv (N : Z) (a : CEPAgent) :
  CEPAgent_init N = Returned a ->
  0 <= N /\ a = mk_CEPAgent (mk_deque N []) [] [] (mk_Statistics 0 ∅ ∅ 0) false.
Proof.
  unfold CEPAgent_init, deque_new.
  destruct (Z.ltb_spec N 0) as [Hneg | Hpos]; intros Heq; [discriminate |].
  injection Heq as <-. split; [assumption | reflexivity].
Qed.

(** C4.  On an agent constructed with capacity [N], after any finite sequence
    of calls the buffer holds at most [N] events; it holds, in the order they
    were added, exactly the last [N] events added (since the last clear), so
    an insertion at capacity drops the oldest-inserted event whatever the
    timestamps are; and [total_events] is the number of events ever passed to
    [add_event], each call adding one whether or not it evicts. *)
Theorem buffer_bound_fifo (N : Z) (a : CEPAgent) (clk : nat -> datetime) (cs : list call) :
  CEPAgent_init N = Returned a ->
  let w := run_calls cs (world_of a clk) in
  Z.of_nat (length (buffer w)) <= N /\
  buffer w = trailing (Z.to_nat N) (added_since_clear [] cs) /\
  total_events (stats w) = Z.of_nat (length (added [] cs)) /\
  (forall e : Event,
     buffer (exec (add_event e) w) =
       (if Z.of_nat (length (buffer w)) <? N
        then buffer w ++ [e]
        else tail (buffer w ++ [e])) /\
     total_events (stats (exec (add_event e) w)) = total_events (stats w) + 1).
Proof.
  intros Hinit w.
  destruct (CEPAgent_init_inv N a Hinit) as [HN ->].
  destruct (run_calls_buffer cs
              (world_of (mk_CEPAgent (mk_deque N []) [] [] (mk_Statistics 0 ∅ ∅ 0) false) clk)
              [] [])
    as (Hmax & Hbuf & Htot); try (cbn; auto; fail).
  fold w in Hmax, Hbuf, Htot. cbn [world_of self event_buffer maxlen] in Hmax, Hbuf.
  repeat split.
  - rewrite Hbuf, trailing_length. lia.
  - exact Hbuf.
  - exact Htot.
  - destruct (add_event_effect e w) as (Hb & _).
    unfold buffer. rewrite Hb.
    destruct (Z.ltb_spec (Z.of_nat (length (items (event_buffer (self w))))) N).
    + apply deque_append_room. rewrite Hmax. assumption.
    + apply deque_append_full. rewrite Hmax. assumption.
  - destruct (add_event_effect e w) as (_ & _ & Ht & _). exact Ht.
Qed.

Lemma buffer_bound_fifo_witness :
  CEPAgent_init 2 = Returned agent_cap2 /\
  let w := run_calls calls_sample (world_of agent_cap2 clock_8) in
  Z.of_nat (length (buffer w)) <= 2 /\
  buffer w = [ev_b; ev_c] /\
  total_events (stats w) = 3 /\
  (forall e : Event,
     buffer (exec (add_event e) w) =
       (if Z.of_nat (length (buffer w)) <? 2
        then buffer w ++ [e]
        else tail (buffer w ++ [e])) /\
     total_events (stats (exec (add_event e) w)) = total_events (stats w) + 1).
Proof.
  split; [reflexivity |].
  exact (buffer_bound_fifo 2 agent_cap2 clock_8 calls_sample eq_refl).
Defined.

(** ** The event counters *)

Lemma dict_sum_empty : dict_sum ∅ = 0.
Proof. unfold dict_sum. apply map_fold_empty. Qed.

Lemma dict_sum_insert_fresh (m : gmap string Z) (k : string) (v : Z) :
  m !! k = None -> dict_sum (<[k := v]> m) = v + dict_sum m.
Proof.
  intros Hk. unfold dict_sum.
  apply (map_fold_insert_L (fun _ v acc => v + acc)); [intros; lia | exact Hk].
Qed.

Lemma dict_sum_present (m : gmap string Z) (k : string) (v : Z) :
  m !! k = Some v -> dict_sum m = v + dict_sum (delete k m).
Proof.
  intros Hk. unfold dict_sum.
  apply (map_fold_delete_L (fun _ v acc => v + acc)); [intros; lia | exact Hk].
Qed.

(** [d[k] = d.get(k, 0) + 1] raises the sum of the values by one. *)
Lemma dict_sum_incr (m : gmap string Z) (k : string) :
  dict_sum (<[k := dict_get0 m k + 1]> m) = dict_sum m + 1.
Proof.
  unfold dict_get0. destruct (m !! k) as [v |] eqn:Hk; simpl.
  - rewrite <- insert_delete_eq.
    rewrite dict_sum_insert_fresh by apply lookup_delete_eq.
    rewrite (dict_sum_present m k v Hk). lia.
  - rewrite dict_sum_insert_fresh by exact Hk. lia.
Qed.

(** It raises the counter of [k] by one and no other. *)
Lemma dict_get0_incr (m : gmap string Z) (k k' : string) :
  dict_get0 (<[k := dict_get0 m k + 1]> m) k' =
  dict_get0 m k' + (if decide (k' = k) then 1 else 0).
Proof.
  unfold dict_get0. destruct (decide (k' = k)) as [-> | Hne].
  - rewrite lookup_insert_eq. reflexivity.
  - rewrite lookup_insert_ne by congruence. lia.
Qed.

Lemma run_calls_counters (cs : list call) :
  forall w : World,
    total_events (stats w) = dict_sum (events_by_type (stats w)) ->
    total_events (stats w) = dict_sum (events_by_priority (stats w)) ->
    let w' := run_calls cs w in
    total_events (stats w') = dict_sum (events_by_type (stats w')) /\
    total_events (stats w') = dict_sum (events_by_priority (stats w')).
Proof.
  induction cs as [| c cs IH]; intros w Hty Hpr; simpl; [auto |].
  apply IH; destruct c as [p | e |]; simpl; try assumption.
  - destruct (add_event_effect e w) as (_ & _ & Ht & Hmap & _).
    rewrite Ht, Hmap, dict_sum_incr. lia.
  - destruct (add_event_effect e w) as (_ & _ & Ht & _ & Hmap & _).
    rewrite Ht, Hmap, dict_sum_incr. lia.
Qed.

(** C10.  After any finite sequence of [register_pattern], [add_event] and
    [clear_buffer] calls on a constructed agent, [total_events] equals the sum
    of the values of [events_by_type] and the sum of the values of
    [events_by_priority]; a further [add_event] raises [total_events] by one
    and, in each map, the counter of the event's key by one and no other;
    [register_pattern] and [clear_buffer] leave the statistics as they are.
    This holds whether or not a condition or an action raises. *)
Theorem counters_agree (N : Z) (a : CEPAgent) (clk : nat -> datetime) (cs : list call) :
  CEPAgent_init N = Returned a ->
  let w := run_calls cs (world_of a clk) in
  total_events (stats w) = dict_sum (events_by_type (stats w)) /\
  total_events (stats w) = dict_sum (events_by_priority (stats w)) /\
  (forall e : Event,
     let w' := exec (add_event e) w in
     total_events (stats w') = total_events (stats w) + 1 /\
     (forall k, dict_get0 (events_by_type (stats w')) k =
                dict_get0 (events_by_type (stats w)) k +
                (if decide (k = EventType_value (event_type e)) then 1 else 0)) /\
     (forall k, dict_get0 (events_by_priority (stats w')) k =
                dict_get0 (events_by_priority (stats w)) k +
                (if decide (k = EventPriority_name (priority e)) then 1 else 0))) /\
  (forall p : Pattern, stats (exec (register_pattern p) w) = stats w) /\
  stats (exec clear_buffer w) = stats w.
Proof.
  intros Hinit w.
  destruct (CEPAgent_init_inv N a Hinit) as [_ ->].
  destruct (run_calls_counters cs
              (world_of (mk_CEPAgent (mk_deque N []) [] [] (mk_Statistics 0 ∅ ∅ 0) false) clk))
    as (Hty & Hpr); try (cbn; rewrite dict_sum_empty; reflexivity).
  fold w in Hty, Hpr.
  split; [exact Hty |]. split; [exact Hpr |].
  split; [| split; [intros p; reflexivity | reflexivity]].
  intros e w'.
  destruct (add_event_effect e w) as (_ & _ & Ht & Hmty & Hmpr & _).
  fold w' in Ht, Hmty, Hmpr.
  split; [exact Ht |].
  split; intros k; [rewrite Hmty | rewrite Hmpr]; apply dict_get0_incr.
Qed.

Lemma counters_agree_witness :
  CEPAgent_init 2 = Returned agent_cap2 /\
  let w := run_calls calls_sample (world_of agent_cap2 clock_8) in
  total_events (stats w) = dict_sum (events_by_type (stats w)) /\
  total_events (stats w) = dict_sum (events_by_priority (stats w)) /\
  (forall e : Event,
     let w' := exec (add_event e) w in
     total_events (stats w') = total_events (stats w) + 1 /\
     (forall k, dict_get0 (events_by_type (stats w')) k =
                dict_get0 (events_by_type (stats w)) k +
                (if decide (k = EventType_value (event_type e)) then 1 else 0)) /\
     (forall k, dict_get0 (events_by_priority (stats w')) k =
                dict_get0 (events_by_priority (stats w)) k +
                (if decide (k = EventPriority_name (priority e)) then 1 else 0))) /\
  (forall p : Pattern, stats (exec (register_pattern p) w) = stats w) /\
  stats (exec clear_buffer w) = stats w.
Proof.
  split; [reflexivity |].
  exact (counters_agree 2 agent_cap2 clock_8 calls_sample eq_refl).
Defined.

(** ** [get_events] and [clear_buffer] *)

Lemma py_slice_from_nil {A} (start : Z) : py_slice_from start (@nil A) = [].
Proof. unfold py_slice_from. apply drop_nil. Qed.

Lemma get_events_run (et pr : pyvalue) (limit : Z) (w : World) :
  get_events et pr limit w =
    (Returned
       (py_slice_from (- limit)
          (let events := buffer w in
           let events :=
             if truthy et
             then filter (fun e => py_eq (PyEventType (event_type e)) et = true) events
             else events in
           if truthy pr
           then filter (fun e => py_eq (PyEventPriority (priority e)) pr = true) events
           else events)),
     w).
Proof. reflexivity. Qed.

(** C9.  [clear_buffer] returns normally and leaves the buffer empty, so that
    [get_events] returns the empty list for every filter and every limit; the
    statistics (all four entries), the registry and the detection log are
    what they were before the call. *)
Theorem clear_buffer_keeps_statistics (w : World) :
  let w' := exec clear_buffer w in
  eval clear_buffer w = Returned tt /\
  buffer w' = [] /\
  (forall (et pr : pyvalue) (limit : Z),
     eval (get_events et pr limit) w' = Returned []) /\
  statistics (self w') = statistics (self w) /\
  patterns (self w') = patterns (self w) /\
  detected_patterns (self w') = detected_patterns (self w).
Proof.
  intros w'. subst w'. unfold exec, eval. rewrite clear_buffer_run.
  cbn [fst snd]. repeat split.
  intros et pr limit. rewrite get_events_run. cbn [fst].
  unfold buffer. cbn [self set_event_buffer event_buffer deque_clear items].
  destruct (truthy et), (truthy pr); cbn; now rewrite py_slice_from_nil.
Qed.

(** ** The registry *)

Lemma dict_getitem_setitem {V} (k : string) (v : V) (d : list (string * V)) :
  dict_getitem k (dict_setitem k v d) = Some v.
Proof.
  induction d as [| [k' v'] d IH]; simpl.
  - now rewrite String.eqb_refl.
  - destruct (String.eqb k' k) eqn:E; simpl.
    + now rewrite String.eqb_refl.
    + now rewrite E.
Qed.

Lemma dict_getitem_setitem_ne {V} (k k0 : string) (v : V) (d : list (string * V)) :
  k0 <> k -> dict_getitem k0 (dict_setitem k v d) = dict_getitem k0 d.
Proof.
  intros Hne. induction d as [| [k' v'] d IH]; simpl.
  - destruct (String.eqb_spec k k0); [congruence | reflexivity].
  - destruct (String.eqb_spec k' k) as [-> | Hk]; simpl.
    + destruct (String.eqb_spec k k0); [congruence | reflexivity].
    + destruct (String.eqb_spec k' k0); [reflexivity | exact IH].
Qed.

(** Registering under an id already present keeps the number of entries. *)
Lemma dict_setitem_present_length {V} (k : string) (v : V) (d : list (string * V)) :
  dict_getitem k d <> None -> length (dict_setitem k v d) = length d.
Proof.
  induction d as [| [k' v'] d IH]; simpl; [congruence |].
  destruct (String.eqb k' k); simpl; [reflexivity |].
  intros H. now rewrite IH.
Qed.

(** C3, as the code has it.  [register_pattern] checks nothing: for every
    pattern, an empty type sequence or a non-positive window included, it
    returns normally and the registry then holds the pattern under its id. *)
Theorem register_pattern_accepts_every_pattern (p : Pattern) (w : World) :
  let w' := exec (register_pattern p) w in
  eval (register_pattern p) w = Returned tt /\
  dict_getitem (pattern_id p) (patterns (self w')) = Some p.
Proof.
  intros w'. subst w'. unfold exec, eval. rewrite register_pattern_run.
  cbn [fst snd self set_patterns patterns]. split; [reflexivity |].
  apply dict_getitem_setitem.
Qed.

(** C3, refuted as stated: a pattern with an empty type sequence and a zero
    window is registered without any error. *)
Lemma register_pattern_accepts_void :
  event_types pattern_void = [] /\
  time_window pattern_void <= 0 /\
  eval (register_pattern pattern_void) world_three = Returned tt /\
  dict_getitem "void_01" (patterns (self (exec (register_pattern pattern_void) world_three)))
    = Some pattern_void.
Proof. repeat split. cbn. lia. Qed.

(** An enum member equals no value of another kind. *)
Lemma filter_foreign_type (v : pyvalue) (l : list Event) :
  foreign_type_filter v = true ->
  filter (fun e => py_eq (PyEventType (event_type e)) v = true) l = [].
Proof.
  intros Hv. induction l as [| e l IH]; [reflexivity |].
  rewrite filter_cons_False; [exact IH |].
  destruct v; cbn in Hv |- *; congruence.
Qed.

Lemma filter_foreign_priority (v : pyvalue) (l : list Event) :
  foreign_priority_filter v = true ->
  filter (fun e => py_eq (PyEventPriority (priority e)) v = true) l = [].
Proof.
  intros Hv. induction l as [| e l IH]; [reflexivity |].
  rewrite filter_cons_False; [exact IH |].
  destruct v; cbn in Hv |- *; congruence.
Qed.

(** C8, as the code has it.  [get_events] validates nothing and never raises.
    A filter value that is true as a condition but is no member of the enum
    matches no event, so the call returns the empty list; one that is false
    as a condition (the empty string, 0) filters nothing, like [None]. *)
Theorem get_events_foreign_filter (et pr : pyvalue) (limit : Z) (w : World) :
  (exists l, get_events et pr limit w = (Returned l, w)) /\
  (foreign_type_filter et = true \/ foreign_priority_filter pr = true ->
     get_events et pr limit w = (Returned [], w)) /\
  (truthy et = false -> get_events et pr limit w = get_events PyNone pr limit w) /\
  (truthy pr = false -> get_events et pr limit w = get_events et PyNone limit w).
Proof.
  rewrite !get_events_run. cbn zeta. repeat split.
  - eexists. reflexivity.
  - intros [Hf | Hf].
    + assert (Ht : truthy et = true)
        by (unfold foreign_type_filter in Hf; destruct (truthy et); [reflexivity | discriminate]).
      rewrite Ht, filter_foreign_type by exact Hf.
      destruct (truthy pr); cbn; now rewrite py_slice_from_nil.
    + assert (Ht : truthy pr = true)
        by (unfold foreign_priority_filter in Hf; destruct (truthy pr); [reflexivity | discriminate]).
      rewrite Ht, filter_foreign_priority by exact Hf.
      now rewrite py_slice_from_nil.
  - intros ->. reflexivity.
  - intros ->. reflexivity.
Qed.

Lemma get_events_foreign_filter_witness :
  (foreign_type_filter bogus_filter = true \/ foreign_priority_filter PyNone = true) /\
  truthy (PyStr EmptyString) = false /\
  truthy (PyInt 0) = false /\
  get_events bogus_filter PyNone 100 world_three = (Returned [], world_three) /\
  get_events (PyStr EmptyString) PyNone 100 world_three = get_events PyNone PyNone 100 world_three /\
  get_events PyNone (PyInt 0) 100 world_three = get_events PyNone PyNone 100 world_three.
Proof.
  split; [left; reflexivity |].
  split; [reflexivity |]. split; [reflexivity |].
  split; [| split].
  - exact (proj1 (proj2 (get_events_foreign_filter bogus_filter PyNone 100 world_three))
             (or_introl eq_refl)).
  - exact (proj1 (proj2 (proj2 (get_events_foreign_filter (PyStr EmptyString) PyNone 100 world_three)))
             eq_refl).
  - exact (proj2 (proj2 (proj2 (get_events_foreign_filter PyNone (PyInt 0) 100 world_three)))
             eq_refl).
Defined.

(** C8, refuted as stated: asked for the string "sensor_reading" instead of
    the enum member, on a buffer that holds a sensor reading, [get_events]
    returns the empty list and raises nothing. *)
Lemma get_events_bogus_filter_is_silent :
  is_EventType_or_None bogus_filter = false /\
  eval (get_events PyNone PyNone 100) world_three = Returned [ev_a; ev_alert; ev_breach] /\
  eval (get_events bogus_filter PyNone 100) world_three = Returned [] /\
  (forall e : exn, eval (get_events bogus_filter PyNone 100) world_three <> Raised e).
Proof. repeat split. intros e H. discriminate H. Qed.

(** ** The slice [l[-n:]] *)

Lemma py_slice_from_neg {A} (n : Z) (l : list A) :
  0 < n -> py_slice_from (- n) l = trailing (Z.to_nat n) l.
Proof.
  intros Hn. unfold py_slice_from, trailing.
  destruct (Z.ltb_spec (- n) 0); [| lia].
  f_equal. lia.
Qed.

Lemma py_slice_from_zero {A} (l : list A) : py_slice_from (- 0) l = l.
Proof.
  unfold py_slice_from. cbn [Z.opp Z.ltb Z.compare].
  rewrite Z.min_l by lia. apply drop_0.
Qed.

Lemma filter_py_eq_type (t : EventType) (l : list Event) :
  filter (fun e => py_eq (PyEventType (event_type e)) (PyEventType t) = true) l
  = filter (fun e => event_type e = t) l.
Proof.
  apply list_filter_iff. intros e. cbn [py_eq]. apply bool_decide_eq_true.
Qed.

Lemma filter_py_eq_priority (p : EventPriority) (l : list Event) :
  filter (fun e => py_eq (PyEventPriority (priority e)) (PyEventPriority p) = true) l
  = filter (fun e => priority e = p) l.
Proof.
  apply list_filter_iff. intros e. cbn [py_eq]. apply bool_decide_eq_true.
Qed.

(** With filters of the intended kinds the list that is sliced is the
    filtered buffer of the specification. *)
Lemma get_events_spec_filter (et : option EventType) (pr : option EventPriority)
    (limit : Z) (w : World) :
  get_events (opt_type et) (opt_priority pr) limit w =
    (Returned (py_slice_from (- limit) (spec_filter et pr (buffer w))), w).
Proof.
  rewrite get_events_run. unfold spec_filter.
  destruct et as [t |], pr as [p |]; cbn [opt_type opt_priority truthy];
    rewrite ?filter_py_eq_type, ?filter_py_eq_priority; reflexivity.
Qed.

(** For a limit of at least 1, [get_events] returns the last
    [min limit count] events of the filtered buffer, in insertion order. *)
Lemma get_events_positive_limit (et : option EventType) (pr : option EventPriority)
    (limit : Z) (w : World) :
  0 < limit ->
  eval (get_events (opt_type et) (opt_priority pr) limit) w =
    Returned (trailing (Z.to_nat limit) (spec_filter et pr (buffer w))).
Proof.
  intros Hl. unfold eval. rewrite get_events_spec_filter. cbn [fst].
  now rewrite py_slice_from_neg.
Qed.

(** For a limit of 0 the slice is [events[-0:]], the whole list. *)
Lemma get_events_zero_limit (et : option EventType) (pr : option EventPriority)
    (w : World) :
  eval (get_events (opt_type et) (opt_priority pr) 0) w =
    Returned (spec_filter et pr (buffer w)).
Proof.
  unfold eval. rewrite get_events_spec_filter. cbn [fst].
  now rewrite py_slice_from_zero.
Qed.

(** C7, at the input where the code departs from it: with three events in
    the buffer, no filter and [limit = 0], [get_events] returns all three
    events, where the most recent 0 events are the empty list. *)
Theorem get_events_limit_zero_returns_all :
  eval (get_events PyNone PyNone 0) world_three = Returned [ev_a; ev_alert; ev_breach] /\
  trailing (Z.to_nat 0) (spec_filter None None (buffer world_three)) = [].
Proof. split; reflexivity. Qed.

(* ===================================================================== *)
(** ** The time filter                                                    *)
(* ===================================================================== *)

Lemma get_recent_events_empty (tw : timedelta) (w : World) :
  buffer w = [] -> _get_recent_events tw w = (Returned [], w).
Proof.
  unfold buffer, _get_recent_events, bind, get_self. cbn. intros ->. reflexivity.
Qed.

Lemma get_recent_events_run (tw : timedelta) (w : World) :
  buffer w <> [] ->
  datetime_ok (clock w (ticks w) - tw) = true ->
  _get_recent_events tw w =
    (Returned (filter (fun e => clock w (ticks w) - tw <= timestamp e) (buffer w)),
     ticked w).
Proof.
  unfold buffer, _get_recent_events, bind, get_self, now, lift, datetime_sub. cbn.
  intros Hne Hok. destruct (items (event_buffer (self w))) as [| e l]; [congruence |].
  cbn. rewrite Hok. reflexivity.
Qed.

(** A cutoff outside the range of [datetime] makes the subtraction raise. *)
Lemma get_recent_events_overflow (tw : timedelta) (w : World) :
  buffer w <> [] ->
  datetime_ok (clock w (ticks w) - tw) = false ->
  _get_recent_events tw w =
    (Raised (OverflowError "date value out of range"), ticked w).
Proof.
  unfold buffer, _get_recent_events, bind, get_self, now, lift, datetime_sub. cbn.
  intros Hne Hok. destruct (items (event_buffer (self w))) as [| e l]; [congruence |].
  cbn. rewrite Hok. reflexivity.
Qed.

(** C6, as the code has it.  With [now] the reading of the clock that
    [_get_recent_events] takes: for a buffer that holds events at instants
    t0 < t1 < t2 with t2 - t0 > window and t2 - t1 <= window, and [now] = t2,
    the result is exactly the events at t1 and t2, in insertion order; and in
    general, when the buffer is empty or the cutoff [now - window] is an
    instant that [datetime] can represent, the result is the list of the
    buffered events whose timestamp is at least [now - window], in insertion
    order. *)
Theorem recent_events_within_window :
  (forall (tw : timedelta) (w : World) (e0 e1 e2 : Event),
     buffer w = [e0; e1; e2] ->
     datetime_ok (timestamp e0) = true ->
     datetime_ok (timestamp e1) = true ->
     timestamp e0 < timestamp e1 < timestamp e2 ->
     timestamp e2 - timestamp e0 > tw ->
     timestamp e2 - timestamp e1 <= tw ->
     clock w (ticks w) = timestamp e2 ->
     eval (_get_recent_events tw) w = Returned [e1; e2]) /\
  (forall (tw : timedelta) (w : World),
     buffer w = [] \/ datetime_ok (clock w (ticks w) - tw) = true ->
     eval (_get_recent_events tw) w =
       Returned (filter (fun e => clock w (ticks w) - tw <= timestamp e) (buffer w))).
Proof.
  split.
  - intros tw w e0 e1 e2 Hbuf Hok0 Hok1 Hlt Hout Hin Hnow.
    unfold datetime_ok in Hok0, Hok1.
    apply andb_prop in Hok0 as [H0lo _]. apply andb_prop in Hok1 as [_ H1hi].
    apply Z.leb_le in H0lo, H1hi.
    unfold eval. rewrite get_recent_events_run.
    + cbn [fst]. rewrite Hbuf, Hnow. f_equal.
      rewrite filter_cons_False by lia.
      rewrite filter_cons_True by lia.
      rewrite filter_cons_True by lia.
      reflexivity.
    + rewrite Hbuf. discriminate.
    + rewrite Hnow. unfold datetime_ok.
      apply andb_true_intro. split; apply Z.leb_le; lia.
  - intros tw w [Hempty | Hok].
    + unfold eval. rewrite get_recent_events_empty by exact Hempty.
      rewrite Hempty. reflexivity.
    + destruct (buffer w) as [| e l] eqn:Hbuf.
      * unfold eval. rewrite get_recent_events_empty by exact Hbuf. reflexivity.
      * unfold eval. rewrite get_recent_events_run; [now rewrite Hbuf | | exact Hok].
        rewrite Hbuf. discriminate.
Qed.

Lemma recent_events_within_window_witness :
  buffer world_sensors = [ev_a; ev_b; ev_c] /\
  datetime_ok (timestamp ev_a) = true /\
  datetime_ok (timestamp ev_b) = true /\
  timestamp ev_a < timestamp ev_b < timestamp ev_c /\
  timestamp ev_c - timestamp ev_a > minutes 5 /\
  timestamp ev_c - timestamp ev_b <= minutes 5 /\
  clock world_sensors (ticks world_sensors) = timestamp ev_c /\
  eval (_get_recent_events (minutes 5)) world_sensors = Returned [ev_b; ev_c] /\
  datetime_ok (clock world_three (ticks world_three) - minutes 1) = true /\
  eval (_get_recent_events (minutes 1)) world_three = Returned [ev_alert; ev_breach].
Proof.
  assert (Hlt : timestamp ev_a < timestamp ev_b < timestamp ev_c)
    by (split; reflexivity).
  assert (Hout : timestamp ev_c - timestamp ev_a > minutes 5) by reflexivity.
  assert (Hin : timestamp ev_c - timestamp ev_b <= minutes 5)
    by (vm_compute; discriminate).
  refine (conj eq_refl (conj eq_refl (conj eq_refl (conj Hlt (conj Hout (conj Hin
            (conj eq_refl (conj _ (conj eq_refl _))))))))).
  - exact (proj1 recent_events_within_window (minutes 5) world_sensors ev_a ev_b ev_c
             eq_refl eq_refl eq_refl Hlt Hout Hin eq_refl).
  - exact (proj2 recent_events_within_window (minutes 1) world_three (or_intror eq_refl)).
Defined.

(** C6, refuted as stated: with three events buffered and a window of 800000
    days, every buffered event has a timestamp at least [now - window], but
    [now - window] lies before the year 1, so the subtraction raises
    OverflowError and nothing is returned. *)
Lemma recent_events_cutoff_out_of_range :
  buffer world_sensors = [ev_a; ev_b; ev_c] /\
  filter (fun e => clock world_sensors (ticks world_sensors) - days 800000 <= timestamp e)
         (buffer world_sensors) = [ev_a; ev_b; ev_c] /\
  datetime_ok (clock world_sensors (ticks world_sensors) - days 800000) = false /\
  eval (_get_recent_events (days 800000)) world_sensors
    = Raised (OverflowError "date value out of range") /\
  eval (_get_recent_events (days 800000)) world_sensors
    <> Returned (filter (fun e => clock world_sensors (ticks world_sensors) - days 800000
                                  <= timestamp e)
                        (buffer world_sensors)).
Proof.
  split; [reflexivity |]. split; [reflexivity |]. split; [reflexivity |].
  split; [reflexivity |]. intros H. discriminate H.
Qed.

(* ===================================================================== *)
(** ** [Pattern.matches]                                                  *)
(* ===================================================================== *)

Lemma py_index_last {A} (l : list A) :
  py_index l (-1) =
    match last l with
    | Some x => Returned x
    | None => Raised (IndexError "list index out of range")
    end.
Proof.
  unfold py_index. cbn [Z.ltb Z.compare].
  destruct l as [| x l]; [reflexivity |].
  set (l0 := x :: l).
  assert (Hlen : (0 < length l0)%nat) by (subst l0; simpl; lia).
  destruct (Z.ltb_spec (Z.of_nat (length l0) + -1) 0); [lia |].
  destruct (Z.leb_spec (Z.of_nat (length l0)) (Z.of_nat (length l0) + -1)); [lia |].
  cbn [orb]. rewrite last_lookup.
  replace (Z.to_nat (Z.of_nat (length l0) + -1)) with (Nat.pred (length l0)) by lia.
  reflexivity.
Qed.

Lemma py_index_head {A} (l : list A) :
  py_index l 0 =
    match head l with
    | Some x => Returned x
    | None => Raised (IndexError "list index out of range")
    end.
Proof.
  unfold py_index. cbn [Z.ltb Z.compare].
  destruct l as [| x l]; [reflexivity |].
  cbn [length]. destruct (Z.leb_spec (Z.of_nat (S (length l))) 0); [lia |].
  reflexivity.
Qed.

(** [matches] as one case analysis: too few events; no event at all (only
    reachable with an empty type sequence), where [events[-1]] raises; span
    over the window; types of the slice; and only then the condition. *)
Lemma matches_run (p : Pattern) (events : list Event) (w : World) :
  matches p events w =
    if (length events <? length (event_types p))%nat then (Returned false, w)
    else match last events, head events with
         | Some e_last, Some e_first =>
             if timestamp e_last - timestamp e_first >? time_window p
             then (Returned false, w)
             else if bool_decide
                       (py_slice_from (- Z.of_nat (length (event_types p)))
                                      (map event_type events) = event_types p)
                  then call_condition p events w
                  else (Returned false, w)
         | _, _ => (Raised (IndexError "list index out of range"), w)
         end.
Proof.
  unfold matches.
  destruct (length events <? length (event_types p))%nat; [reflexivity |].
  unfold bind at 1. unfold lift at 1. rewrite py_index_last.
  destruct (last events) as [e_last |] eqn:Hlast.
  - unfold bind at 1. unfold lift at 1. rewrite py_index_head.
    destruct (head events) as [e_first |] eqn:Hhead.
    + destruct (_ >? _); [reflexivity |].
      destruct (bool_decide _); reflexivity.
    + reflexivity.
  - destruct (head events); reflexivity.
Qed.

Lemma matches_structural (p : Pattern) (events : list Event) (w : World) :
  structural_checks p events = true ->
  matches p events w = call_condition p events w.
Proof.
  unfold structural_checks. intros H.
  apply andb_prop in H as [H Hty]. apply andb_prop in H as [Hlen Hspan].
  rewrite matches_run.
  destruct (length events <? length (event_types p))%nat; [discriminate |].
  destruct (last events), (head events); try discriminate.
  destruct (_ >? _); [discriminate |].
  now rewrite Hty.
Qed.

Lemma call_condition_run (p : Pattern) (events : list Event) (w : World) :
  call_condition p events w =
    (condition p events,
     mk_World (self w) (clock w) (ticks w)
              (trace w ++ [CallCondition (pattern_id p) events])).
Proof. reflexivity. Qed.

(** The slice the code takes of the types is the types of the trailing slice,
    as soon as the type sequence is not empty. *)
Lemma slice_types_trailing (n : nat) (events : list Event) :
  (0 < n)%nat ->
  py_slice_from (- Z.of_nat n) (map event_type events)
  = map event_type (trailing n events).
Proof.
  intros Hn. rewrite py_slice_from_neg by lia.
  unfold trailing. rewrite Nat2Z.id, length_map. apply skipn_map.
Qed.

(** C5.  [matches] returns false, without consulting the condition, when
    there are fewer candidates than types in the sequence, when the last
    candidate's timestamp exceeds the first's by more than the window, or
    when the types of the trailing [len(event_types)] candidates differ from
    the type sequence; in particular a pattern for [ALERT, THRESHOLD_BREACH]
    rejects every candidate list that ends with a THRESHOLD_BREACH followed
    by an ALERT. *)
Theorem matches_rejects (p : Pattern) (events : list Event) (w : World) :
  (length events < length (event_types p))%nat
  \/ (exists e_first e_last,
        head events = Some e_first /\ last events = Some e_last /\
        timestamp e_last - timestamp e_first > time_window p)
  \/ map event_type (trailing (length (event_types p)) events) <> event_types p
  \/ (event_types p = [ALERT; THRESHOLD_BREACH] /\
      exists pre e1 e2,
        events = pre ++ [e1; e2] /\
        event_type e1 = THRESHOLD_BREACH /\ event_type e2 = ALERT) ->
  matches p events w = (Returned false, w).
Proof.
  assert (Hlen_case : forall q evs,
            (length evs < length (event_types q))%nat ->
            matches q evs w = (Returned false, w)).
  { intros q evs Hlt. rewrite matches_run.
    destruct (Nat.ltb_spec (length evs) (length (event_types q))); [reflexivity | lia]. }
  assert (Htypes_case : forall q evs,
            map event_type (trailing (length (event_types q)) evs) <> event_types q ->
            matches q evs w = (Returned false, w)).
  { intros q evs Hne. rewrite matches_run.
    destruct (Nat.ltb_spec (length evs) (length (event_types q))) as [| Hge];
      [reflexivity |].
    destruct (last evs) as [e_last |] eqn:Hlast.
    - destruct (head evs) as [e_first |] eqn:Hhead.
      + destruct (_ >? _); [reflexivity |].
        destruct (event_types q) as [| t ts] eqn:Hts.
        * exfalso. apply Hne. unfold trailing. cbn [length].
          rewrite Nat.sub_0_r, drop_all. reflexivity.
        * rewrite slice_types_trailing by (cbn; lia).
          rewrite bool_decide_eq_false_2 by exact Hne. reflexivity.
      + destruct evs; [discriminate Hlast | discriminate Hhead].
    - destruct evs as [| e evs']; [| now rewrite last_cons in Hlast; destruct (last evs')].
      exfalso. apply Hne. cbn in Hge.
      destruct (event_types q); [reflexivity | cbn in Hge; lia]. }
  intros [Hlt | [(e_first & e_last & Hhead & Hlast & Hspan) | [Hne | (Hty & pre & e1 & e2 & -> & H1 & H2)]]].
  - now apply Hlen_case.
  - rewrite matches_run.
    destruct (length events <? length (event_types p))%nat; [reflexivity |].
    rewrite Hlast, Hhead.
    destruct (Z.gtb_spec (timestamp e_last - timestamp e_first) (time_window p));
      [reflexivity | lia].
  - now apply Htypes_case.
  - apply Htypes_case. rewrite Hty. unfold trailing.
    rewrite length_app. cbn [length].
    replace (length pre + 2 - 2)%nat with (length pre) by lia.
    rewrite drop_app_length. cbn. rewrite H1, H2. discriminate.
Qed.

Lemma matches_rejects_witness :
  ((length [ev_alert] < length (event_types pattern2))%nat /\
   matches pattern2 [ev_alert] world_three = (Returned false, world_three)) /\
  (timestamp ev_breach - timestamp ev_a > time_window pattern2 /\
   matches pattern2 [ev_a; ev_alert; ev_breach] world_three = (Returned false, world_three)) /\
  (map event_type (trailing (length (event_types pattern2)) [ev_a; ev_b; ev_c])
     <> event_types pattern2 /\
   matches pattern2 [ev_a; ev_b; ev_c] world_three = (Returned false, world_three)) /\
  (event_type ev_breach_first = THRESHOLD_BREACH /\ event_type ev_alert_after = ALERT /\
   matches pattern2 ([ev_a] ++ [ev_breach_first; ev_alert_after]) world_three
     = (Returned false, world_three)).
Proof.
  assert (Ha : (length [ev_alert] < length (event_types pattern2))%nat) by (cbn; lia).
  assert (Hb : timestamp ev_breach - timestamp ev_a > time_window pattern2) by reflexivity.
  assert (Hc : map event_type (trailing (length (event_types pattern2)) [ev_a; ev_b; ev_c])
               <> event_types pattern2) by (vm_compute; discriminate).
  refine (conj (conj Ha _) (conj (conj Hb _) (conj (conj Hc _) (conj eq_refl (conj eq_refl _))))).
  - exact (matches_rejects pattern2 [ev_alert] world_three (or_introl Ha)).
  - apply (matches_rejects pattern2 [ev_a; ev_alert; ev_breach] world_three).
    right; left. exists ev_a, ev_breach. exact (conj eq_refl (conj eq_refl Hb)).
  - exact (matches_rejects pattern2 [ev_a; ev_b; ev_c] world_three
             (or_intror (or_intror (or_introl Hc)))).
  - apply (matches_rejects pattern2 ([ev_a] ++ [ev_breach_first; ev_alert_after]) world_three).
    right; right; right. split; [reflexivity |].
    exists [ev_a], ev_breach_first, ev_alert_after.
    exact (conj eq_refl (conj eq_refl eq_refl)).
Defined.

(** In the order of its type sequence [pattern2] does match: the rejections
    above come from the tests, not from the model. *)
Lemma matches_pattern2_in_order :
  eval (matches pattern2 [ev_alert; ev_breach]) world_three = Returned true.
Proof. reflexivity. Qed.

(* ===================================================================== *)
(** ** The evaluation pass                                                *)
(* ===================================================================== *)

Lemma get_recent_events_world (tw : timedelta) (w w1 : World) (r : outcome (list Event)) :
  _get_recent_events tw w = (r, w1) ->
  self w1 = self w /\ clock w1 = clock w /\ trace w1 = trace w /\
  (ticks w1 = ticks w \/ ticks w1 = S (ticks w)).
Proof.
  unfold _get_recent_events, bind, get_self, now, lift. cbn.
  destruct (items (event_buffer (self w))).
  - intros [= <- <-]. auto.
  - cbn. destruct (datetime_sub _ _); intros [= <- <-]; cbn; auto.
Qed.

Lemma handle_pattern_match_run (p : Pattern) (events : list Event) (w : World) :
  _handle_pattern_match p events w =
    (action_outcome p events,
     mk_World
       (set_statistics
          (set_patterns_detected (patterns_detected (stats w) + 1) (stats w))
          (set_detected_patterns
             (detected_patterns (self w) ++
                [mk_PatternDetection (pattern_id p) (name p) (clock w (ticks w))
                                     (map event_id events) (description p)])
             (self w)))
       (clock w) (S (ticks w))
       (trace w ++ [Log INFO ("Pattern detected: " +:+ name p)]
                ++ [CallAction (pattern_id p) events]
                ++ action_error_log p events)).
Proof.
  unfold _handle_pattern_match, action_outcome, action_error_log, bind, now,
    modify_self, logger_info, logger_error, emit, try_except, call_action, lift, stats.
  cbn. destruct (action p events) as [[] | e]; cbn.
  - rewrite <- !app_assoc. reflexivity.
  - destruct (is_Exception e); cbn; rewrite <- !app_assoc; reflexivity.
Qed.

(** An exception of an action is caught where the action is called: the
    detection stays recorded, the error is logged, and
    [_handle_pattern_match] returns normally. *)
Lemma handle_pattern_match_catches (p : Pattern) (events : list Event) (w : World) (e : exn) :
  action p events = Raised e ->
  is_Exception e = true ->
  let w' := exec (_handle_pattern_match p events) w in
  eval (_handle_pattern_match p events) w = Returned tt /\
  length (detected_patterns (self w')) = S (length (detected_patterns (self w))) /\
  last (trace w') = Some (Log ERROR ("Error executing pattern action: " +:+ exn_str e)).
Proof.
  intros Hact Hexn w'. subst w'. unfold exec, eval.
  rewrite handle_pattern_match_run. cbn [fst snd].
  unfold action_outcome, action_error_log. rewrite Hact, Hexn.
  cbn [self set_statistics set_detected_patterns detected_patterns trace].
  split; [reflexivity |]. split.
  - rewrite length_app. cbn. lia.
  - rewrite !app_assoc. apply last_snoc.
Qed.

(** C1, as the code has it.  For a pattern whose candidate list passes the
    three structural tests, the condition is called on the whole time-filtered
    candidate list; when it returns true, the detection appended to the log
    lists the ids of the whole candidate list, [patterns_detected] goes up by
    one, and the action is called on the whole candidate list. *)
Theorem pass_uses_whole_candidate_list (p : Pattern) (w w1 : World) (cands : list Event) :
  _get_recent_events (time_window p) w = (Returned cands, w1) ->
  structural_checks p cands = true ->
  let w' := exec (_check_pattern p) w in
  (exists rest, trace w' = trace w ++ CallCondition (pattern_id p) cands :: rest) /\
  (condition p cands = Returned true ->
     detected_patterns (self w') =
       detected_patterns (self w) ++
         [mk_PatternDetection (pattern_id p) (name p) (clock w (ticks w1))
                              (map event_id cands) (description p)] /\
     patterns_detected (stats w') = patterns_detected (stats w) + 1 /\
     trace w' =
       trace w ++ [CallCondition (pattern_id p) cands;
                   Log INFO ("Pattern detected: " +:+ name p);
                   CallAction (pattern_id p) cands]
               ++ action_error_log p cands).
Proof.
  intros Hrec Hchk w'.
  destruct (get_recent_events_world _ _ _ _ Hrec) as (Hself & Hclock & Htrace & _).
  assert (Hrun : w' = snd (match condition p cands with
                           | Returned true =>
                               _handle_pattern_match p cands
                                 (mk_World (self w1) (clock w1) (ticks w1)
                                    (trace w1 ++ [CallCondition (pattern_id p) cands]))
                           | Returned false =>
                               (Returned tt,
                                mk_World (self w1) (clock w1) (ticks w1)
                                  (trace w1 ++ [CallCondition (pattern_id p) cands]))
                           | Raised e =>
                               (Raised e,
                                mk_World (self w1) (clock w1) (ticks w1)
                                  (trace w1 ++ [CallCondition (pattern_id p) cands]))
                           end)).
  { subst w'. unfold exec, _check_pattern.
    unfold bind at 1. rewrite Hrec.
    unfold bind at 1. rewrite matches_structural by exact Hchk.
    rewrite call_condition_run.
    destruct (condition p cands) as [[|] | e]; reflexivity. }
  split.
  - rewrite Hrun. destruct (condition p cands) as [[|] | e].
    + rewrite handle_pattern_match_run. cbn [snd trace]. rewrite Htrace.
      rewrite <- !app_assoc. cbn [app]. eexists. reflexivity.
    + cbn [snd trace]. rewrite Htrace. eexists. reflexivity.
    + cbn [snd trace]. rewrite Htrace. eexists. reflexivity.
  - intros Htrue. rewrite Hrun, Htrue, handle_pattern_match_run.
    unfold stats.
    cbn [snd self clock ticks trace set_statistics set_detected_patterns
         set_patterns_detected detected_patterns statistics patterns_detected].
    rewrite Hself, Hclock, Htrace.
    repeat split. rewrite <- !app_assoc. reflexivity.
Qed.

Lemma pass_uses_whole_candidate_list_witness :
  _get_recent_events (time_window pattern1) world_spike_full
    = (Returned [ev_b; ev_c; ev_d], ticked world_spike_full) /\
  structural_checks pattern1 [ev_b; ev_c; ev_d] = true /\
  condition pattern1 [ev_b; ev_c; ev_d] = Returned true /\
  let w' := exec (_check_pattern pattern1) world_spike_full in
  (exists rest, trace w' = CallCondition "temp_spike_01" [ev_b; ev_c; ev_d] :: rest) /\
  detected_patterns (self w') =
    [mk_PatternDetection "temp_spike_01" "Temperature Spike" (at_minute 8)
                         ["EVT_0001"; "EVT_0002"; "EVT_0005"]
                         "Detects rapid temperature changes"] /\
  patterns_detected (stats w') = 1 /\
  trace w' = [CallCondition "temp_spike_01" [ev_b; ev_c; ev_d];
              Log INFO "Pattern detected: Temperature Spike";
              CallAction "temp_spike_01" [ev_b; ev_c; ev_d]].
Proof.
  pose proof (pass_uses_whole_candidate_list pattern1 world_spike_full
                (ticked world_spike_full) [ev_b; ev_c; ev_d] eq_refl eq_refl) as [Hcall Hdet].
  specialize (Hdet eq_refl). destruct Hdet as (Hlog & Hcount & Htrace).
  exact (conj eq_refl (conj eq_refl (conj eq_refl
           (conj Hcall (conj Hlog (conj Hcount Htrace)))))).
Defined.

(** C1, refuted as stated: with [ev_b] and [ev_c] buffered and the
    temperature pattern (two sensor readings) registered, adding [ev_d] makes
    the pass call the condition and the action on all three candidates and
    record all three ids, not the trailing two; on the trailing two the
    condition would not even hold. *)
Lemma pass_not_on_trailing_slice :
  let w' := exec (add_event ev_d) world_spike in
  eval (add_event ev_d) world_spike = Returned tt /\
  trace w' = [Log INFO "Event added: EVT_0005 - sensor_reading";
              CallCondition "temp_spike_01" [ev_b; ev_c; ev_d];
              Log INFO "Pattern detected: Temperature Spike";
              CallAction "temp_spike_01" [ev_b; ev_c; ev_d]] /\
  map det_matching_events (detected_patterns (self w'))
    = [["EVT_0001"; "EVT_0002"; "EVT_0005"]] /\
  trailing (length (event_types pattern1)) [ev_b; ev_c; ev_d] = [ev_c; ev_d] /\
  map event_id [ev_c; ev_d] = ["EVT_0002"; "EVT_0005"] /\
  [ev_b; ev_c; ev_d] <> [ev_c; ev_d] /\
  condition pattern1 [ev_c; ev_d] = Returned false.
Proof. cbv zeta. repeat split. discriminate. Qed.

(** A condition that raises is not guarded: the exception leaves
    [_check_pattern] as it is, and the loop over the registry stops at that
    pattern, whatever patterns come after it. *)
Lemma check_pattern_condition_raises (p : Pattern) (w w1 : World)
    (cands : list Event) (e : exn) :
  _get_recent_events (time_window p) w = (Returned cands, w1) ->
  structural_checks p cands = true ->
  condition p cands = Raised e ->
  _check_pattern p w =
    (Raised e,
     mk_World (self w1) (clock w1) (ticks w1)
              (trace w1 ++ [CallCondition (pattern_id p) cands])).
Proof.
  intros Hrec Hchk Hcond. unfold _check_pattern.
  unfold bind at 1. rewrite Hrec.
  unfold bind at 1. rewrite matches_structural by exact Hchk.
  rewrite call_condition_run, Hcond. reflexivity.
Qed.

Lemma for_each_raises {A} (body : A -> M unit) (x : A) (l : list A)
    (w w' : World) (e : exn) :
  body x w = (Raised e, w') ->
  for_each (x :: l) body w = (Raised e, w').
Proof. intros Hx. cbn [for_each]. unfold bind. now rewrite Hx. Qed.

(** C2, at the input where the code departs from it: with a pattern whose
    condition raises registered ahead of the temperature pattern, [add_event]
    raises that exception to its caller, and the pass stops there, so the
    temperature pattern is not evaluated and nothing is detected; without the
    raising pattern the same call detects the temperature pattern. *)
Theorem raising_condition_aborts_pass :
  let w' := exec (add_event ev_d) world_raising in
  eval (add_event ev_d) world_raising = Raised (UserException "boom") /\
  trace w' = [Log INFO "Event added: EVT_0005 - sensor_reading";
              CallCondition "raising_01" [ev_b; ev_c; ev_d]] /\
  detected_patterns (self w') = [] /\
  map det_pattern_id (detected_patterns (self (exec (add_event ev_d) world_spike)))
    = ["temp_spike_01"].
Proof. cbv zeta. repeat split. Qed.

(** The sibling path: an exception of an action is caught, the detection is
    kept, and the pass goes on to the next pattern. *)
Lemma failing_action_is_isolated :
  let w' := exec (add_event ev_d) world_failing_action in
  eval (add_event ev_d) world_failing_action = Returned tt /\
  trace w' = [Log INFO "Event added: EVT_0005 - sensor_reading";
              CallCondition "failing_01" [ev_b; ev_c; ev_d];
              Log INFO "Pattern detected: Failing action";
              CallAction "failing_01" [ev_b; ev_c; ev_d];
              Log ERROR "Error executing pattern action: boom";
              CallCondition "temp_spike_01" [ev_b; ev_c; ev_d];
              Log INFO "Pattern detected: Temperature Spike";
              CallAction "temp_spike_01" [ev_b; ev_c; ev_d]] /\
  map det_pattern_id (detected_patterns (self w')) = ["failing_01"; "temp_spike_01"].
Proof. cbv zeta. repeat split. Qed.

(* ===================================================================== *)
(** ** More about [Pattern.matches]                                       *)
(* ===================================================================== *)

(** What the structural tests amount to, in the terms of the trailing
    slice. *)
Lemma structural_checks_inv (p : Pattern) (events : list Event) :
  structural_checks p events = true ->
  event_types p <> [] /\
  (length (event_types p) <= length events)%nat /\
  map event_type (trailing (length (event_types p)) events) = event_types p /\
  exists e_first e_last,
    head events = Some e_first /\ last events = Some e_last /\
    timestamp e_last - timestamp e_first <= time_window p.
Proof.
  unfold structural_checks. intros H.
  apply andb_prop in H as [H Hty]. apply andb_prop in H as [Hlen Hspan].
  apply negb_true_iff, Nat.ltb_ge in Hlen.
  apply bool_decide_eq_true in Hty.
  destruct (last events) as [e_last |] eqn:Hlast; [| discriminate].
  destruct (head events) as [e_first |] eqn:Hhead; [| discriminate].
  apply negb_true_iff in Hspan.
  assert (Hne : event_types p <> []).
  { intros Hnil. rewrite Hnil in Hty. cbn [length Z.of_nat] in Hty.
    rewrite py_slice_from_zero in Hty.
    destruct events; [discriminate Hlast | discriminate Hty]. }
  split; [exact Hne |]. split; [exact Hlen |]. split.
  - rewrite <- slice_types_trailing; [exact Hty |].
    destruct (event_types p); [congruence | cbn; lia].
  - exists e_first, e_last. repeat split.
    destruct (Z.gtb_spec (timestamp e_last - timestamp e_first) (time_window p));
      [discriminate | lia].
Qed.

(** [matches] either hands over to the condition, when the structural tests
    pass, or answers by itself without touching the world, and then never
    with true. *)
Lemma matches_cases (p : Pattern) (events : list Event) (w : World) :
  (structural_checks p events = true /\
   matches p events w = call_condition p events w)
  \/ (structural_checks p events = false /\
      exists r, matches p events w = (r, w) /\ r <> Returned true).
Proof.
  destruct (structural_checks p events) eqn:Hchk.
  - left. split; [reflexivity | now apply matches_structural].
  - right. split; [reflexivity |].
    rewrite matches_run. unfold structural_checks in Hchk.
    destruct (length events <? length (event_types p))%nat;
      [eexists; split; [reflexivity | discriminate] |].
    destruct (last events), (head events);
      try (eexists; split; [reflexivity | discriminate]).
    destruct (_ >? _); [eexists; split; [reflexivity | discriminate] |].
    cbn in Hchk. rewrite Hchk.
    eexists; split; [reflexivity | discriminate].
Qed.

(** X1.  [matches] returns true exactly when the candidate list passes the
    three structural tests and the condition, called on that list, returns
    true. *)
Theorem matches_true_iff (p : Pattern) (events : list Event) (w : World) :
  eval (matches p events) w = Returned true <->
  structural_checks p events = true /\ condition p events = Returned true.
Proof.
  unfold eval. destruct (matches_cases p events w) as [[Hchk Hrun] | [Hchk (r & Hrun & Hr)]];
    rewrite Hrun.
  - rewrite call_condition_run. cbn [fst]. tauto.
  - cbn [fst]. split; [intros ->; congruence | intros [Hc _]; congruence].
Qed.

Lemma matches_true_iff_witness :
  eval (matches pattern2 [ev_alert; ev_breach]) world_three = Returned true /\
  structural_checks pattern2 [ev_alert; ev_breach] = true /\
  condition pattern2 [ev_alert; ev_breach] = Returned true.
Proof.
  pose proof (proj2 (matches_true_iff pattern2 [ev_alert; ev_breach] world_three)
                (conj eq_refl eq_refl)) as Hm.
  exact (conj Hm (conj eq_refl eq_refl)).
Defined.

(** X2.  [matches] never touches the agent or the clock, and calls the
    condition at most once, on the list it was given.  When it does call it,
    the type sequence is not empty, the list has at least as many events as
    the type sequence, the types of its trailing events are the type
    sequence, and its last event is at most one window after its first: the
    condition never sees an empty list. *)
Theorem matches_calls_condition_after_tests (p : Pattern) (events : list Event) (w : World) :
  let w' := exec (matches p events) w in
  self w' = self w /\ ticks w' = ticks w /\
  (trace w' = trace w \/
   trace w' = trace w ++ [CallCondition (pattern_id p) events]) /\
  (trace w' <> trace w ->
     event_types p <> [] /\
     (length (event_types p) <= length events)%nat /\
     map event_type (trailing (length (event_types p)) events) = event_types p /\
     exists e_first e_last,
       head events = Some e_first /\ last events = Some e_last /\
       timestamp e_last - timestamp e_first <= time_window p).
Proof.
  intros w'. subst w'. unfold exec.
  destruct (matches_cases p events w) as [[Hchk Hrun] | [Hchk (r & Hrun & Hr)]];
    rewrite Hrun.
  - rewrite call_condition_run. cbn [snd self ticks trace].
    split; [reflexivity |]. split; [reflexivity |].
    split; [right; reflexivity |].
    intros _. now apply structural_checks_inv.
  - cbn [snd]. split; [reflexivity |]. split; [reflexivity |].
    split; [left; reflexivity |].
    intros Hne. congruence.
Qed.

Lemma matches_calls_condition_after_tests_witness :
  let w' := exec (matches pattern2 [ev_alert; ev_breach]) world_three in
  trace w' <> trace world_three /\
  (length (event_types pattern2) <= length [ev_alert; ev_breach])%nat /\
  map event_type (trailing (length (event_types pattern2)) [ev_alert; ev_breach])
    = event_types pattern2.
Proof.
  assert (Hne : trace (exec (matches pattern2 [ev_alert; ev_breach]) world_three)
                <> trace world_three) by (vm_compute; discriminate).
  destruct (matches_calls_condition_after_tests pattern2 [ev_alert; ev_breach] world_three)
    as (_ & _ & _ & Hcall).
  destruct (Hcall Hne) as (_ & Hlen & Hty & _).
  exact (conj Hne (conj Hlen Hty)).
Defined.

Lemma matches_empty_types (p : Pattern) (events : list Event) (w : World) :
  event_types p = [] ->
  matches p events w =
    (match events with
     | [] => Raised (IndexError "list index out of range")
     | _ :: _ => Returned false
     end, w).
Proof.
  intros Hnil. rewrite matches_run, Hnil. cbn [length Z.of_nat].
  rewrite py_slice_from_zero.
  destruct events as [| e l]; [reflexivity |].
  destruct (Nat.ltb_spec (length (e :: l)) 0); [lia |].
  destruct (last (e :: l)) as [e_last |] eqn:Hlast.
  - cbn [head]. destruct (_ >? _); [reflexivity |].
    rewrite bool_decide_eq_false_2 by discriminate. reflexivity.
  - rewrite last_cons in Hlast. destruct (last l); discriminate.
Qed.

(** X3.  A pattern whose type sequence is empty never matches: on a
    non-empty candidate list [matches] returns false without calling the
    condition (the slice [types[-0:]] is the whole list, not the empty one),
    and on the empty candidate list [events[-1]] raises IndexError. *)
Theorem empty_type_sequence_never_matches (p : Pattern) (events : list Event) (w : World) :
  event_types p = [] ->
  matches p events w =
    (match events with
     | [] => Raised (IndexError "list index out of range")
     | _ :: _ => Returned false
     end, w).
Proof. apply matches_empty_types. Qed.

Lemma empty_type_sequence_never_matches_witness :
  event_types pattern_void = [] /\
  matches pattern_void [] world_three
    = (Raised (IndexError "list index out of range"), world_three) /\
  matches pattern_void [ev_a; ev_b] world_three = (Returned false, world_three).
Proof.
  exact (conj eq_refl
           (conj (empty_type_sequence_never_matches pattern_void [] world_three eq_refl)
                 (empty_type_sequence_never_matches pattern_void [ev_a; ev_b] world_three
                    eq_refl))).
Defined.

(* ===================================================================== *)
(** ** What a pass records                                                *)
(* ===================================================================== *)

Lemma get_recent_events_sublist (tw : timedelta) (w w1 : World) (cands : list Event) :
  _get_recent_events tw w = (Returned cands, w1) ->
  cands `sublist_of` buffer w.
Proof.
  destruct (buffer w) as [| e l] eqn:Hbuf.
  - rewrite get_recent_events_empty by exact Hbuf. intros [= <- <-]. reflexivity.
  - assert (Hne : buffer w <> []) by (rewrite Hbuf; discriminate).
    destruct (datetime_ok (clock w (ticks w) - tw)) eqn:Hok.
    + rewrite get_recent_events_run by assumption. intros [= <- <-].
      rewrite <- Hbuf. apply sublist_filter.
    + rewrite get_recent_events_overflow by assumption. discriminate.
Qed.

Lemma check_pattern_run (p : Pattern) (w : World) :
  _check_pattern p w =
    match _get_recent_events (time_window p) w with
    | (Returned cands, w1) =>
        match matches p cands w1 with
        | (Returned true, w2) => _handle_pattern_match p cands w2
        | (Returned false, w2) => (Returned tt, w2)
        | (Raised e, w2) => (Raised e, w2)
        end
    | (Raised e, w1) => (Raised e, w1)
    end.
Proof.
  unfold _check_pattern, bind.
  destruct (_get_recent_events (time_window p) w) as [[cands | e] w1]; [| reflexivity].
  destruct (matches p cands w1) as [[[|] | e] w2]; reflexivity.
Qed.

(** One pattern of a pass: either its candidate list passes the tests and
    its condition returns true, and then the pass records the detection; or
    the agent is left as it was. *)
Lemma check_pattern_cases (p : Pattern) (w : World) :
  (exists cands w1,
     _get_recent_events (time_window p) w = (Returned cands, w1) /\
     structural_checks p cands = true /\
     condition p cands = Returned true /\
     _check_pattern p w =
       _handle_pattern_match p cands
         (mk_World (self w1) (clock w1) (ticks w1)
                   (trace w1 ++ [CallCondition (pattern_id p) cands])))
  \/ self (exec (_check_pattern p) w) = self w.
Proof.
  unfold exec. rewrite check_pattern_run.
  destruct (_get_recent_events (time_window p) w) as [[cands | e] w1] eqn:Hrec.
  - destruct (get_recent_events_world _ _ _ _ Hrec) as (Hself & _).
    destruct (matches_cases p cands w1) as [[Hchk Hrun] | [Hchk (r & Hrun & Hr)]];
      rewrite Hrun.
    + rewrite call_condition_run.
      destruct (condition p cands) as [[|] | x] eqn:Hcond.
      * left. exists cands, w1. repeat split; assumption.
      * right. exact Hself.
      * right. exact Hself.
    + right. destruct r as [[|] | x]; [congruence | exact Hself | exact Hself].
  - right. destruct (get_recent_events_world _ _ _ _ Hrec) as (Hself & _). exact Hself.
Qed.

Lemma pass_log_same (ps : list Pattern) (n : nat) (w w' : World) :
  self w' = self w -> clock w' = clock w -> pass_log ps n w w'.
Proof.
  intros Hself Hclock. split.
  - unfold pass_frame, stats. rewrite Hself, Hclock. tauto.
  - exists []. unfold stats. rewrite Hself, app_nil_r. cbn.
    repeat split; [lia | lia | constructor].
Qed.

Lemma pass_log_compose (ps : list Pattern) (n m : nat) (w1 w2 w3 : World) :
  pass_log ps n w1 w2 -> pass_log ps m w2 w3 -> pass_log ps (n + m) w1 w3.
Proof.
  intros [Hf1 (new1 & Hd1 & Hc1 & Hl1 & Hj1)] [Hf2 (new2 & Hd2 & Hc2 & Hl2 & Hj2)].
  split; [eapply pass_frame_trans; eassumption |].
  exists (new1 ++ new2). repeat split.
  - rewrite Hd2, Hd1, app_assoc. reflexivity.
  - rewrite Hc2, Hc1, length_app. lia.
  - rewrite length_app. lia.
  - apply Forall_app. split; [exact Hj1 |].
    destruct Hf1 as (Hbuf & _). unfold buffer in *. rewrite <- Hbuf. exact Hj2.
Qed.

Lemma pass_log_weaken (ps : list Pattern) (n m : nat) (w w' : World) :
  (n <= m)%nat -> pass_log ps n w w' -> pass_log ps m w w'.
Proof.
  intros Hle [Hf (new & Hd & Hc & Hl & Hj)].
  split; [exact Hf |]. exists new. repeat split; try assumption. lia.
Qed.

Lemma check_pattern_log (ps : list Pattern) (p : Pattern) (w : World) :
  In p ps -> pass_log ps 1 w (exec (_check_pattern p) w).
Proof.
  intros Hin.
  pose proof (keeps_frame_check_pattern p w) as Hframe.
  destruct (check_pattern_cases p w)
    as [(cands & w1 & Hrec & Hchk & Hcond & Hrun) | Hself].
  - destruct (get_recent_events_world _ _ _ _ Hrec) as (Hself & Hclock & _).
    split; [exact Hframe |].
    unfold exec. rewrite Hrun, handle_pattern_match_run. unfold stats.
    cbn [snd self clock ticks set_statistics set_detected_patterns
         set_patterns_detected detected_patterns statistics patterns_detected].
    rewrite Hself.
    eexists. split; [reflexivity |]. split; [cbn; lia |]. split; [cbn; lia |].
    constructor; [| constructor].
    exists p, cands. cbn. repeat split; try assumption.
    eapply get_recent_events_sublist. exact Hrec.
  - destruct Hframe as (_ & _ & _ & _ & _ & _ & Hclock).
    now apply pass_log_same.
Qed.

Lemma for_each_log (ps : list Pattern) (l : list Pattern) :
  forall w : World,
    (forall p, In p l -> In p ps) ->
    pass_log ps (length l) w (exec (for_each l _check_pattern) w).
Proof.
  induction l as [| p l IH]; intros w Hsub.
  - now apply pass_log_same.
  - pose proof (check_pattern_log ps p w (Hsub p (or_introl eq_refl))) as Hp.
    unfold exec in *. cbn [for_each]. unfold bind.
    destruct (_check_pattern p w) as [[[] | e] w1]; cbn [snd] in *.
    + apply (pass_log_compose ps 1 (length l) w w1); [exact Hp |].
      apply IH. intros q Hq. apply Hsub. now right.
    + apply (pass_log_weaken ps 1); [cbn; lia | exact Hp].
Qed.

Lemma check_patterns_log (w : World) :
  pass_log (dict_values (patterns (self w))) (length (patterns (self w)))
           w (exec _check_patterns w).
Proof.
  unfold exec, _check_patterns, bind, get_self. cbn [fst snd].
  pose proof (for_each_log (dict_values (patterns (self w)))
                (dict_values (patterns (self w))) w (fun p H => H)) as H.
  unfold dict_values in H at 2. rewrite length_map in H. exact H.
Qed.

(** [add_event] is its bookkeeping followed by a pass. *)
Lemma add_event_split (e : Event) (w : World) :
  exists w0 : World,
    add_event e w = _check_patterns w0 /\
    event_buffer (self w0) = deque_append (event_buffer (self w)) e /\
    patterns (self w0) = patterns (self w) /\
    detected_patterns (self w0) = detected_patterns (self w) /\
    patterns_detected (stats w0) = patterns_detected (stats w) /\
    is_running (self w0) = is_running (self w) /\
    clock w0 = clock w /\ ticks w0 = ticks w /\
    trace w0 =
      trace w ++ [Log INFO ("Event added: " +:+ event_id e +:+ " - "
                            +:+ EventType_value (event_type e))].
Proof.
  eexists. split; [unfold add_event, logger_info; cbn [bind modify_self emit]; reflexivity |].
  cbn. repeat split.
Qed.

(** The detections of one [add_event]. *)
Lemma add_event_log (e : Event) (w : World) :
  let w' := exec (add_event e) w in
  exists new : list PatternDetection,
    detected_patterns (self w') = detected_patterns (self w) ++ new /\
    patterns_detected (stats w') = patterns_detected (stats w) + Z.of_nat (length new) /\
    (length new <= length (patterns (self w)))%nat /\
    Forall (justified_by (dict_values (patterns (self w))) (buffer w')) new.
Proof.
  intros w'. subst w'.
  destruct (add_event_split e w) as (w0 & Hrun & Hbuf & Hpat & Hdet & Hcnt & _).
  unfold exec. rewrite Hrun.
  destruct (check_patterns_log w0) as [Hframe (new & Hd & Hc & Hl & Hj)].
  unfold exec in *. exists new.
  rewrite Hd, Hc, Hdet, Hcnt. rewrite Hpat in Hl, Hj.
  repeat split; try assumption.
  destruct Hframe as (Hb & _). unfold buffer in *. rewrite Hb. exact Hj.
Qed.

(** The records of one pattern's share of a pass: none, or one that carries
    the pattern's id. *)
Lemma check_pattern_new_records (p : Pattern) (w : World) :
  let w' := exec (_check_pattern p) w in
  exists new : list PatternDetection,
    detected_patterns (self w') = detected_patterns (self w) ++ new /\
    patterns_detected (stats w') = patterns_detected (stats w) + Z.of_nat (length new) /\
    map det_pattern_id new `sublist_of` [pattern_id p].
Proof.
  intros w'. subst w'.
  destruct (check_pattern_cases p w)
    as [(cands & w1 & Hrec & Hchk & Hcond & Hrun) | Hself].
  - destruct (get_recent_events_world _ _ _ _ Hrec) as (Hself & _).
    unfold exec. rewrite Hrun, handle_pattern_match_run. unfold stats.
    cbn [snd self set_statistics set_detected_patterns set_patterns_detected
         detected_patterns statistics patterns_detected].
    rewrite Hself. eexists. split; [reflexivity |].
    split; [cbn; lia | reflexivity].
  - exists []. unfold stats. rewrite Hself, app_nil_r.
    split; [reflexivity |]. split; [cbn; lia | apply sublist_nil_l].
Qed.

Lemma for_each_new_records (l : list Pattern) :
  forall w : World,
    let w' := exec (for_each l _check_pattern) w in
    exists new : list PatternDetection,
      detected_patterns (self w') = detected_patterns (self w) ++ new /\
      patterns_detected (stats w') = patterns_detected (stats w) + Z.of_nat (length new) /\
      map det_pattern_id new `sublist_of` map pattern_id l.
Proof.
  induction l as [| p l IH]; intros w w'; subst w'.
  - exists []. rewrite app_nil_r. split; [reflexivity |].
    split; [cbn; lia | constructor].
  - destruct (check_pattern_new_records p w) as (new1 & Hd1 & Hc1 & Hs1).
    unfold exec in *. cbn [for_each]. unfold bind.
    destruct (_check_pattern p w) as [[[] | e] w1]; cbn [snd] in *.
    + destruct (IH w1) as (new2 & Hd2 & Hc2 & Hs2).
      exists (new1 ++ new2). rewrite Hd2, Hd1, Hc2, Hc1, app_assoc, length_app, map_app.
      split; [reflexivity |]. split; [lia |].
      change (map pattern_id (p :: l)) with ([pattern_id p] ++ map pattern_id l).
      now apply sublist_app.
    + exists new1. split; [exact Hd1 |]. split; [exact Hc1 |].
      change (map pattern_id (p :: l)) with ([pattern_id p] ++ map pattern_id l).
      rewrite <- (app_nil_r (map det_pattern_id new1)).
      apply sublist_app; [exact Hs1 | apply sublist_nil_l].
Qed.

(** X4.  Provided conditions and actions do not call back into the agent:
    one [add_event] only appends to the detection log; the pattern ids of
    the records it appends are, in order, a sub-sequence of the ids of the
    registered patterns in registration order, so that each registered
    pattern accounts for at most one record; and [patterns_detected] goes up
    by the number of records appended. *)
Theorem add_event_appends_detections (e : Event) (w : World) :
  let w' := exec (add_event e) w in
  exists new : list PatternDetection,
    detected_patterns (self w') = detected_patterns (self w) ++ new /\
    map det_pattern_id new `sublist_of` map pattern_id (dict_values (patterns (self w))) /\
    (length new <= length (patterns (self w)))%nat /\
    patterns_detected (stats w') = patterns_detected (stats w) + Z.of_nat (length new).
Proof.
  intros w'. subst w'.
  destruct (add_event_split e w) as (w0 & Hrun & _ & Hpat & Hdet & Hcnt & _).
  unfold exec. rewrite Hrun.
  unfold _check_patterns, bind, get_self. cbn [fst snd].
  destruct (for_each_new_records (dict_values (patterns (self w0))) w0)
    as (new & Hd & Hc & Hs).
  unfold exec in Hd, Hc. exists new.
  rewrite Hd, Hc, Hdet, Hcnt. rewrite Hpat in Hs.
  split; [reflexivity |]. split; [exact Hs |]. split; [| reflexivity].
  apply sublist_length in Hs. unfold dict_values in Hs.
  now rewrite !length_map in Hs.
Qed.

(** X5.  Every record that an [add_event] appends was earned: it carries the
    id, name and description of a registered pattern, and the ids of a list
    of events, in buffer order, that passes the structural tests of that
    pattern and on which its condition returned true. *)
Theorem add_event_detections_justified (e : Event) (w : World) :
  let w' := exec (add_event e) w in
  exists new : list PatternDetection,
    detected_patterns (self w') = detected_patterns (self w) ++ new /\
    Forall (justified_by (dict_values (patterns (self w))) (buffer w')) new.
Proof.
  intros w'. destruct (add_event_log e w) as (new & Hd & _ & _ & Hj).
  exists new. auto.
Qed.

Lemma sublist_In {A} (l1 l2 : list A) (x : A) :
  l1 `sublist_of` l2 -> In x l1 -> In x l2.
Proof.
  intros Hsub Hin. apply list_elem_of_In. apply list_elem_of_In in Hin.
  eapply elem_of_sublist; eassumption.
Qed.

(** X6.  Provided conditions and actions do not call back into the agent:
    the event ids of a record that an [add_event] appends are ids of events
    that are in the buffer when the call ends, so a detection never refers
    to an evicted event. *)
Theorem add_event_detections_refer_to_buffer (e : Event) (w : World) :
  let w' := exec (add_event e) w in
  exists new : list PatternDetection,
    detected_patterns (self w') = detected_patterns (self w) ++ new /\
    forall d i,
      In d new -> In i (det_matching_events d) ->
      exists ev, In ev (buffer w') /\ event_id ev = i.
Proof.
  intros w'. destruct (add_event_log e w) as (new & Hd & _ & _ & Hj).
  exists new. split; [exact Hd |].
  intros d i Hd_in Hi.
  rewrite List.Forall_forall in Hj.
  destruct (Hj d Hd_in) as (p & cands & _ & _ & _ & _ & Hids & Hsub & _).
  rewrite Hids in Hi. apply in_map_iff in Hi as (ev & Hev & Hin).
  exists ev. split; [| exact Hev].
  eapply sublist_In; eassumption.
Qed.

Lemma add_event_detections_refer_to_buffer_witness :
  let w' := exec (add_event ev_d) world_spike in
  exists new : list PatternDetection,
    detected_patterns (self w') = detected_patterns (self world_spike) ++ new /\
    exists d, In d new /\
      forall i, In i (det_matching_events d) ->
                exists ev, In ev (buffer w') /\ event_id ev = i.
Proof.
  destruct (add_event_detections_refer_to_buffer ev_d world_spike) as (new & Hd & Href).
  exists new. split; [exact Hd |].
  assert (Hnew : new = [mk_PatternDetection "temp_spike_01" "Temperature Spike" (at_minute 8)
                          ["EVT_0001"; "EVT_0002"; "EVT_0005"]
                          "Detects rapid temperature changes"]).
  { change (detected_patterns (self (exec (add_event ev_d) world_spike)))
      with ([] ++ [mk_PatternDetection "temp_spike_01" "Temperature Spike" (at_minute 8)
                     ["EVT_0001"; "EVT_0002"; "EVT_0005"]
                     "Detects rapid temperature changes"]) in Hd.
    change (detected_patterns (self world_spike)) with (@nil PatternDetection) in Hd.
    apply app_inv_head in Hd. symmetry. exact Hd. }
  eexists. split; [rewrite Hnew; left; reflexivity |].
  intros i Hi. eapply Href; [rewrite Hnew; left; reflexivity | exact Hi].
Defined.

(* ===================================================================== *)
(** ** The registry as an insertion-ordered dict                          *)
(* ===================================================================== *)

Lemma dict_keys_setitem_present {V} (k : string) (v : V) (d : list (string * V)) :
  In k (dict_keys d) -> dict_keys (dict_setitem k v d) = dict_keys d.
Proof.
  induction d as [| [k' v'] d IH]; cbn; [tauto |].
  intros Hin. destruct (String.eqb_spec k' k) as [-> | Hne]; cbn; [reflexivity |].
  f_equal. apply IH. destruct Hin; [congruence | assumption].
Qed.

Lemma dict_keys_setitem_absent {V} (k : string) (v : V) (d : list (string * V)) :
  ~ In k (dict_keys d) -> dict_keys (dict_setitem k v d) = dict_keys d ++ [k].
Proof.
  induction d as [| [k' v'] d IH]; cbn; [reflexivity |].
  intros Hnin. destruct (String.eqb_spec k' k) as [-> | Hne]; cbn; [tauto |].
  f_equal. apply IH. tauto.
Qed.

Lemma dict_keys_setitem_In {V} (k k0 : string) (v : V) (d : list (string * V)) :
  In k0 (dict_keys d) -> In k0 (dict_keys (dict_setitem k v d)).
Proof.
  intros Hin. destruct (in_dec String.string_dec k (dict_keys d)) as [Hk | Hk].
  - now rewrite dict_keys_setitem_present.
  - rewrite dict_keys_setitem_absent by exact Hk. apply in_or_app. now left.
Qed.

Lemma dict_keys_setitem_key {V} (k : string) (v : V) (d : list (string * V)) :
  In k (dict_keys (dict_setitem k v d)).
Proof.
  destruct (in_dec String.string_dec k (dict_keys d)) as [Hk | Hk].
  - now rewrite dict_keys_setitem_present.
  - rewrite dict_keys_setitem_absent by exact Hk. apply in_or_app. right. now left.
Qed.

Lemma dict_setitem_NoDup {V} (k : string) (v : V) (d : list (string * V)) :
  NoDup (dict_keys d) -> NoDup (dict_keys (dict_setitem k v d)).
Proof.
  intros Hnd. destruct (in_dec String.string_dec k (dict_keys d)) as [Hk | Hk].
  - now rewrite dict_keys_setitem_present.
  - rewrite dict_keys_setitem_absent by exact Hk.
    apply NoDup_app. split; [exact Hnd |]. split.
    + intros x Hx Hx'. apply list_elem_of_In in Hx.
      apply list_elem_of_singleton in Hx'. subst. contradiction.
    + apply NoDup_singleton.
Qed.

Lemma dict_setitem_Forall {V} (P : string * V -> Prop) (k : string) (v : V)
    (d : list (string * V)) :
  Forall P d -> P (k, v) -> Forall P (dict_setitem k v d).
Proof.
  intros Hd Hkv. induction d as [| [k' v'] d IH]; cbn.
  - constructor; [exact Hkv | constructor].
  - inversion Hd as [| x l Hx Hl]; subst.
    destruct (String.eqb k' k); constructor; auto.
Qed.

Lemma dict_getitem_In {V} (k : string) (v : V) (d : list (string * V)) :
  NoDup (dict_keys d) -> In (k, v) d -> dict_getitem k d = Some v.
Proof.
  induction d as [| [k' v'] d IH]; cbn; [tauto |].
  intros Hnd Hin. apply NoDup_cons in Hnd as [Hk' Hnd].
  destruct Hin as [[= -> ->] | Hin].
  - now rewrite String.eqb_refl.
  - destruct (String.eqb_spec k' k) as [-> | Hne]; [| now apply IH].
    exfalso. apply Hk'. apply list_elem_of_In.
    change k with (fst (k, v)). unfold dict_keys. now apply in_map.
Qed.

Lemma dict_getitem_keys {V} (k : string) (d : list (string * V)) :
  In k (dict_keys d) -> dict_getitem k d <> None.
Proof.
  induction d as [| [k' v'] d IH]; cbn; [tauto |].
  intros Hin. destruct (String.eqb_spec k' k) as [-> | Hne]; [discriminate |].
  apply IH. destruct Hin; [congruence | assumption].
Qed.

Lemma dict_setitem_twice {V} (k : string) (v1 v2 : V) (d : list (string * V)) :
  dict_setitem k v2 (dict_setitem k v1 d) = dict_setitem k v2 d.
Proof.
  induction d as [| [k' v'] d IH]; cbn.
  - now rewrite String.eqb_refl.
  - destruct (String.eqb k' k) eqn:E; cbn.
    + now rewrite String.eqb_refl.
    + rewrite E. now rewrite IH.
Qed.

(** X7.  Registering a pattern under an id that is already registered
    replaces the earlier pattern where it stands: the ids and their order
    stay as they are, and so does the number of registered patterns.  A new
    id goes last, so its pattern is evaluated after all the others. *)
Theorem register_pattern_keeps_order (p : Pattern) (w : World) :
  let w' := exec (register_pattern p) w in
  (In (pattern_id p) (dict_keys (patterns (self w))) ->
     dict_keys (patterns (self w')) = dict_keys (patterns (self w)) /\
     length (patterns (self w')) = length (patterns (self w))) /\
  (~ In (pattern_id p) (dict_keys (patterns (self w))) ->
     dict_keys (patterns (self w')) = dict_keys (patterns (self w)) ++ [pattern_id p] /\
     dict_values (patterns (self w')) = dict_values (patterns (self w)) ++ [p]).
Proof.
  intros w'. subst w'. unfold exec. rewrite register_pattern_run.
  cbn [snd self set_patterns patterns]. split.
  - intros Hin. pose proof (dict_keys_setitem_present (pattern_id p) p _ Hin) as Hk.
    split; [exact Hk |].
    apply (f_equal (@length string)) in Hk. unfold dict_keys in Hk.
    now rewrite !length_map in Hk.
  - intros Hnin. split; [now apply dict_keys_setitem_absent |].
    clear -Hnin. induction (patterns (self w)) as [| [k' v'] d IH]; cbn in *; [reflexivity |].
    destruct (String.eqb_spec k' (pattern_id p)) as [-> | Hne]; [tauto |].
    cbn. f_equal. apply IH. tauto.
Qed.

Lemma register_pattern_keeps_order_witness :
  let w := exec (register_pattern pattern2) world_raising in
  ~ In (pattern_id pattern2) (dict_keys (patterns (self world_raising))) /\
  dict_keys (patterns (self w)) = ["raising_01"; "temp_spike_01"; "critical_seq_01"] /\
  In (pattern_id pattern_raising) (dict_keys (patterns (self w))) /\
  dict_keys (patterns (self (exec (register_pattern pattern_raising) w)))
    = ["raising_01"; "temp_spike_01"; "critical_seq_01"].
Proof.
  assert (Hnin : ~ In (pattern_id pattern2) (dict_keys (patterns (self world_raising))))
    by (cbn; intros [H | [H | []]]; discriminate H).
  assert (Hin : In (pattern_id pattern_raising)
                   (dict_keys (patterns (self (exec (register_pattern pattern2) world_raising)))))
    by (left; reflexivity).
  refine (conj Hnin (conj _ (conj Hin _))).
  - exact (proj1 (proj2 (register_pattern_keeps_order pattern2 world_raising) Hnin)).
  - exact (proj1 (proj1 (register_pattern_keeps_order pattern_raising
                           (exec (register_pattern pattern2) world_raising)) Hin)).
Defined.

(** X8.  Registering a second pattern under the id of a first leaves the
    agent exactly as registering the second alone would: the latest
    definition wins and nothing of the earlier one remains. *)
Theorem register_pattern_latest_wins (p1 p2 : Pattern) (w : World) :
  pattern_id p1 = pattern_id p2 ->
  self (exec (register_pattern p2) (exec (register_pattern p1) w))
  = self (exec (register_pattern p2) w).
Proof.
  intros Hid. unfold exec. rewrite !register_pattern_run.
  cbn [snd self set_patterns patterns event_buffer detected_patterns statistics is_running].
  unfold set_patterns. cbn. rewrite Hid, dict_setitem_twice. reflexivity.
Qed.

Lemma register_pattern_latest_wins_witness :
  pattern_id pattern1 = pattern_id (mk_Pattern "temp_spike_01" "Replaced" [ALERT] (minutes 1)
                                      (fun _ => Returned false) (fun _ => Returned tt) "later") /\
  self (exec (register_pattern
                (mk_Pattern "temp_spike_01" "Replaced" [ALERT] (minutes 1)
                   (fun _ => Returned false) (fun _ => Returned tt) "later"))
             (exec (register_pattern pattern1) world_three))
  = self (exec (register_pattern
                  (mk_Pattern "temp_spike_01" "Replaced" [ALERT] (minutes 1)
                     (fun _ => Returned false) (fun _ => Returned tt) "later"))
               world_three).
Proof.
  split; [reflexivity |].
  exact (register_pattern_latest_wins pattern1
           (mk_Pattern "temp_spike_01" "Replaced" [ALERT] (minutes 1)
              (fun _ => Returned false) (fun _ => Returned tt) "later")
           world_three eq_refl).
Defined.

(* ===================================================================== *)
(** ** What every sequence of calls keeps                                 *)
(* ===================================================================== *)

Lemma agent_ok_init (N : Z) (a : CEPAgent) :
  CEPAgent_init N = Returned a -> agent_ok a.
Proof.
  intros Hinit. destruct (CEPAgent_init_inv N a Hinit) as [_ ->].
  unfold agent_ok. cbn. repeat split; constructor.
Qed.

Lemma In_dict_values_keys (ps : list (string * Pattern)) (p : Pattern) :
  Forall (fun kv => fst kv = pattern_id (snd kv)) ps ->
  In p (dict_values ps) -> In (pattern_id p) (dict_keys ps).
Proof.
  intros Hkeyed Hin. unfold dict_values in Hin.
  apply in_map_iff in Hin as ([k q] & Hq & Hin). cbn in Hq. subst q.
  rewrite List.Forall_forall in Hkeyed. specialize (Hkeyed _ Hin). cbn in Hkeyed.
  rewrite <- Hkeyed. change k with (fst (k, p)). unfold dict_keys. now apply in_map.
Qed.

Lemma agent_ok_run_call (c : call) (w : World) :
  agent_ok (self w) -> agent_ok (self (run_call c w)).
Proof.
  intros (Hcount & Hnd & Hkeyed & Hdet). destruct c as [p | e |]; cbn [run_call].
  - unfold exec. rewrite register_pattern_run.
    cbn [snd self]. unfold agent_ok, set_patterns. cbn.
    split; [exact Hcount |]. split; [now apply dict_setitem_NoDup |].
    split; [now apply dict_setitem_Forall |].
    eapply Forall_impl; [exact Hdet |]. intros d Hd. now apply dict_keys_setitem_In.
  - destruct (add_event_log e w) as (new & Hd & Hc & _ & Hj).
    destruct (add_event_effect e w) as (_ & Hpat & _).
    unfold agent_ok. unfold stats in Hc. rewrite Hd, Hc, Hpat, Hcount, length_app.
    split; [lia |]. split; [exact Hnd |]. split; [exact Hkeyed |].
    apply Forall_app. split; [exact Hdet |].
    eapply Forall_impl; [exact Hj |].
    intros d (p & cands & Hin & Hid & _). rewrite Hid.
    now apply In_dict_values_keys.
  - unfold exec. rewrite clear_buffer_run.
    cbn [snd self]. unfold agent_ok, set_event_buffer. cbn. auto.
Qed.

Lemma agent_ok_run_calls (cs : list call) :
  forall w : World, agent_ok (self w) -> agent_ok (self (run_calls cs w)).
Proof.
  induction cs as [| c cs IH]; intros w Hok; [exact Hok |].
  cbn [run_calls]. apply IH. now apply agent_ok_run_call.
Qed.

(** X9.  After any sequence of calls on a constructed agent,
    [patterns_detected] is the number of records in the detection log. *)
Theorem patterns_detected_counts_log (N : Z) (a : CEPAgent) (clk : nat -> datetime)
    (cs : list call) :
  CEPAgent_init N = Returned a ->
  let w := run_calls cs (world_of a clk) in
  patterns_detected (stats w) = Z.of_nat (length (detected_patterns (self w))).
Proof.
  intros Hinit w.
  destruct (agent_ok_run_calls cs (world_of a clk) (agent_ok_init N a Hinit)) as (Hc & _).
  exact Hc.
Qed.

Lemma patterns_detected_counts_log_witness :
  CEPAgent_init 2 = Returned agent_cap2 /\
  let w := run_calls calls_spike (world_of agent_cap2 clock_8) in
  length (detected_patterns (self w)) = 1%nat /\
  patterns_detected (stats w) = Z.of_nat (length (detected_patterns (self w))).
Proof.
  split; [reflexivity |]. split; [reflexivity |].
  exact (patterns_detected_counts_log 2 agent_cap2 clock_8 calls_spike eq_refl).
Defined.

(** X10.  After any sequence of calls on a constructed agent, no id is
    registered twice, and looking up the id of any registered pattern gives
    that very pattern. *)
Theorem registry_keyed_by_pattern_id (N : Z) (a : CEPAgent) (clk : nat -> datetime)
    (cs : list call) :
  CEPAgent_init N = Returned a ->
  let w := run_calls cs (world_of a clk) in
  NoDup (dict_keys (patterns (self w))) /\
  forall p, In p (dict_values (patterns (self w))) ->
            dict_getitem (pattern_id p) (patterns (self w)) = Some p.
Proof.
  intros Hinit w.
  destruct (agent_ok_run_calls cs (world_of a clk) (agent_ok_init N a Hinit))
    as (_ & Hnd & Hkeyed & _).
  fold w in Hnd, Hkeyed. split; [exact Hnd |].
  intros p Hin. unfold dict_values in Hin.
  apply in_map_iff in Hin as ([k q] & Hq & Hin). cbn in Hq. subst q.
  rewrite List.Forall_forall in Hkeyed. pose proof (Hkeyed _ Hin) as Hk. cbn in Hk.
  rewrite <- Hk. now apply dict_getitem_In.
Qed.

Lemma registry_keyed_by_pattern_id_witness :
  CEPAgent_init 2 = Returned agent_cap2 /\
  let w := run_calls (CallRegister pattern2 :: calls_spike) (world_of agent_cap2 clock_8) in
  In pattern1 (dict_values (patterns (self w))) /\
  NoDup (dict_keys (patterns (self w))) /\
  dict_getitem (pattern_id pattern1) (patterns (self w)) = Some pattern1.
Proof.
  assert (Hin : In pattern1
                  (dict_values
                     (patterns
                        (self (run_calls (CallRegister pattern2 :: calls_spike)
                                 (world_of agent_cap2 clock_8))))))
    by (vm_compute; right; left; reflexivity).
  destruct (registry_keyed_by_pattern_id 2 agent_cap2 clock_8
              (CallRegister pattern2 :: calls_spike) eq_refl) as [Hnd Hget].
  exact (conj eq_refl (conj Hin (conj Hnd (Hget pattern1 Hin)))).
Defined.

(** X11.  After any sequence of calls on a constructed agent, every record
    of the detection log carries the id of a pattern that is registered:
    patterns are replaced, never removed. *)
Theorem detections_name_registered_patterns (N : Z) (a : CEPAgent)
    (clk : nat -> datetime) (cs : list call) :
  CEPAgent_init N = Returned a ->
  let w := run_calls cs (world_of a clk) in
  forall d, In d (detected_patterns (self w)) ->
            dict_getitem (det_pattern_id d) (patterns (self w)) <> None.
Proof.
  intros Hinit w d Hd.
  destruct (agent_ok_run_calls cs (world_of a clk) (agent_ok_init N a Hinit))
    as (_ & _ & _ & Hdet).
  fold w in Hdet. rewrite List.Forall_forall in Hdet.
  apply dict_getitem_keys. now apply Hdet.
Qed.

Lemma detections_name_registered_patterns_witness :
  CEPAgent_init 2 = Returned agent_cap2 /\
  let w := run_calls calls_spike (world_of agent_cap2 clock_8) in
  exists d, In d (detected_patterns (self w)) /\
            dict_getitem (det_pattern_id d) (patterns (self w)) <> None.
Proof.
  split; [reflexivity |].
  exists (mk_PatternDetection "temp_spike_01" "Temperature Spike" (at_minute 8)
            ["EVT_0001"; "EVT_0002"] "Detects rapid temperature changes").
  assert (Hin : In (mk_PatternDetection "temp_spike_01" "Temperature Spike" (at_minute 8)
                      ["EVT_0001"; "EVT_0002"] "Detects rapid temperature changes")
                   (detected_patterns
                      (self (run_calls calls_spike (world_of agent_cap2 clock_8)))))
    by (vm_compute; left; reflexivity).
  exact (conj Hin
           (detections_name_registered_patterns 2 agent_cap2 clock_8 calls_spike eq_refl
              _ Hin)).
Defined.

Lemma run_call_log_prefix (c : call) (w : World) :
  detected_patterns (self w) `prefix_of` detected_patterns (self (run_call c w)).
Proof.
  destruct c as [p | e |]; cbn [run_call].
  - unfold exec. rewrite register_pattern_run. reflexivity.
  - destruct (add_event_log e w) as (new & Hd & _). rewrite Hd. now exists new.
  - unfold exec. rewrite clear_buffer_run. reflexivity.
Qed.

(** X12.  The detection log is append-only: whatever calls follow, the
    records already in the log stay, unchanged and in place, at its front;
    [clear_buffer] in particular does not touch them. *)
Theorem detection_log_append_only (cs : list call) (w : World) :
  detected_patterns (self w) `prefix_of` detected_patterns (self (run_calls cs w)).
Proof.
  revert w. induction cs as [| c cs IH]; intros w; [reflexivity |].
  cbn [run_calls]. etransitivity; [apply run_call_log_prefix | apply IH].
Qed.

(* ===================================================================== *)
(** ** The counters, key by key                                           *)
(* ===================================================================== *)

Lemma EventType_value_inj (t1 t2 : EventType) :
  EventType_value t1 = EventType_value t2 -> t1 = t2.
Proof. destruct t1, t2; cbn; intros H; first [reflexivity | discriminate H]. Qed.

Lemma EventPriority_name_inj (p1 p2 : EventPriority) :
  EventPriority_name p1 = EventPriority_name p2 -> p1 = p2.
Proof. destruct p1, p2; cbn; intros H; first [reflexivity | discriminate H]. Qed.

Lemma count_type_snoc (t : EventType) (l : list Event) (e : Event) :
  count_type t (l ++ [e]) =
  count_type t l + (if decide (EventType_value t = EventType_value (event_type e)) then 1 else 0).
Proof.
  unfold count_type. rewrite filter_app, length_app.
  destruct (decide (EventType_value t = EventType_value (event_type e))) as [Heq | Hne].
  - apply EventType_value_inj in Heq.
    rewrite (filter_cons_True _ e []) by congruence. cbn. lia.
  - rewrite (filter_cons_False _ e []) by congruence. cbn. lia.
Qed.

Lemma count_priority_snoc (p : EventPriority) (l : list Event) (e : Event) :
  count_priority p (l ++ [e]) =
  count_priority p l +
  (if decide (EventPriority_name p = EventPriority_name (priority e)) then 1 else 0).
Proof.
  unfold count_priority. rewrite filter_app, length_app.
  destruct (decide (EventPriority_name p = EventPriority_name (priority e))) as [Heq | Hne].
  - apply EventPriority_name_inj in Heq.
    rewrite (filter_cons_True _ e []) by congruence. cbn. lia.
  - rewrite (filter_cons_False _ e []) by congruence. cbn. lia.
Qed.

Lemma run_calls_per_key (cs : list call) :
  forall (w : World) (hist : list Event),
    (forall t, dict_get0 (events_by_type (stats w)) (EventType_value t) = count_type t hist) ->
    (forall p, dict_get0 (events_by_priority (stats w)) (EventPriority_name p)
               = count_priority p hist) ->
    let w' := run_calls cs w in
    (forall t, dict_get0 (events_by_type (stats w')) (EventType_value t)
               = count_type t (added hist cs)) /\
    (forall p, dict_get0 (events_by_priority (stats w')) (EventPriority_name p)
               = count_priority p (added hist cs)).
Proof.
  induction cs as [| c cs IH]; intros w hist Hty Hpr; cbn [run_calls added]; [auto |].
  destruct c as [q | e |].
  - apply IH; assumption.
  - destruct (add_event_effect e w) as (_ & _ & _ & Hmty & Hmpr & _).
    apply IH; cbn [run_call].
    + intros t. rewrite Hmty, dict_get0_incr, Hty, count_type_snoc. reflexivity.
    + intros p. rewrite Hmpr, dict_get0_incr, Hpr, count_priority_snoc. reflexivity.
  - apply IH; assumption.
Qed.

(** X13.  After any sequence of calls on a constructed agent, the counter
    kept in [events_by_type] under the value of an event type is the number
    of events of that type ever passed to [add_event], and the counter kept
    in [events_by_priority] under the name of a priority is the number of
    events of that priority ever passed; eviction and [clear_buffer] do not
    lower them. *)
Theorem counters_per_key (N : Z) (a : CEPAgent) (clk : nat -> datetime) (cs : list call) :
  CEPAgent_init N = Returned a ->
  let w := run_calls cs (world_of a clk) in
  (forall t, dict_get0 (events_by_type (stats w)) (EventType_value t)
             = count_type t (added [] cs)) /\
  (forall p, dict_get0 (events_by_priority (stats w)) (EventPriority_name p)
             = count_priority p (added [] cs)).
Proof.
  intros Hinit w.
  destruct (CEPAgent_init_inv N a Hinit) as [_ ->].
  apply (run_calls_per_key cs); intros; reflexivity.
Qed.

Lemma counters_per_key_witness :
  CEPAgent_init 2 = Returned agent_cap2 /\
  let w := run_calls calls_spike (world_of agent_cap2 clock_8) in
  buffer w = [ev_a] /\
  dict_get0 (events_by_type (stats w)) "sensor_reading" = 4 /\
  dict_get0 (events_by_priority (stats w)) "LOW" = 2.
Proof.
  destruct (counters_per_key 2 agent_cap2 clock_8 calls_spike eq_refl) as [Hty Hpr].
  exact (conj eq_refl (conj eq_refl (conj (Hty SENSOR_READING) (Hpr LOW)))).
Defined.

(* ===================================================================== *)
(** ** More about the queries                                             *)
(* ===================================================================== *)

Lemma py_slice_from_pos {A} (k : Z) (l : list A) :
  0 <= k -> py_slice_from k l = drop (Z.to_nat k) l.
Proof.
  intros Hk. unfold py_slice_from.
  destruct (Z.ltb_spec k 0); [lia |].
  destruct (Z.le_gt_cases k (Z.of_nat (length l))) as [Hle | Hgt].
  - now rewrite Z.min_l.
  - rewrite Z.min_r by lia. rewrite Nat2Z.id, drop_all.
    symmetry. apply drop_ge. lia.
Qed.

Lemma py_slice_from_sublist {A} (start : Z) (l : list A) :
  py_slice_from start l `sublist_of` l.
Proof. unfold py_slice_from. apply sublist_drop. Qed.

Lemma spec_filter_sublist (et : option EventType) (pr : option EventPriority)
    (l : list Event) :
  spec_filter et pr l `sublist_of` l.
Proof.
  unfold spec_filter. destruct et as [t |], pr as [p |].
  - etransitivity; apply sublist_filter; apply _.
  - apply sublist_filter; apply _.
  - apply sublist_filter; apply _.
  - reflexivity.
Qed.

Lemma spec_filter_In (et : option EventType) (pr : option EventPriority)
    (l : list Event) (e : Event) :
  In e (spec_filter et pr l) <->
  In e l /\ (forall t, et = Some t -> event_type e = t)
         /\ (forall p, pr = Some p -> priority e = p).
Proof.
  unfold spec_filter. rewrite <- !list_elem_of_In.
  destruct et as [t |], pr as [p |]; rewrite ?list_elem_of_filter.
  - split.
    + intros (Hp & Ht & Hin). repeat split; [exact Hin | congruence | congruence].
    + intros (Hin & Ht & Hp). repeat split; auto.
  - split.
    + intros (Ht & Hin). repeat split; [exact Hin | congruence | discriminate].
    + intros (Hin & Ht & _). split; auto.
  - split.
    + intros (Hp & Hin). repeat split; [exact Hin | discriminate | congruence].
    + intros (Hin & _ & Hp). split; auto.
  - split.
    + intros Hin. repeat split; [exact Hin | discriminate | discriminate].
    + tauto.
Qed.

(** X14.  With filters of the intended kinds and a limit of at least 1,
    [get_events] returns the last [min(limit, count)] events of the filtered
    buffer, oldest first, and changes nothing. *)
Theorem get_events_most_recent (et : option EventType) (pr : option EventPriority)
    (limit : Z) (w : World) :
  0 < limit ->
  get_events (opt_type et) (opt_priority pr) limit w =
    (Returned (trailing (Z.to_nat limit) (spec_filter et pr (buffer w))), w) /\
  length (trailing (Z.to_nat limit) (spec_filter et pr (buffer w)))
    = Nat.min (Z.to_nat limit) (length (spec_filter et pr (buffer w))).
Proof.
  intros Hl. split.
  - rewrite get_events_spec_filter. now rewrite py_slice_from_neg.
  - apply trailing_length.
Qed.

Lemma get_events_most_recent_witness :
  0 < 2 /\
  get_events (opt_type None) (opt_priority None) 2 world_three
    = (Returned [ev_alert; ev_breach], world_three) /\
  get_events (opt_type (Some SENSOR_READING)) (opt_priority (Some LOW)) 2 world_three
    = (Returned [ev_a], world_three).
Proof.
  exact (conj eq_refl
           (conj (proj1 (get_events_most_recent None None 2 world_three eq_refl))
                 (proj1 (get_events_most_recent (Some SENSOR_READING) (Some LOW) 2
                           world_three eq_refl)))).
Defined.

(** X15.  A negative limit is not refused: [get_events] then returns the
    filtered buffer without its first [-limit] events, since
    [events[-limit:]] is a slice from a positive index. *)
Theorem get_events_negative_limit (et : option EventType) (pr : option EventPriority)
    (limit : Z) (w : World) :
  limit < 0 ->
  get_events (opt_type et) (opt_priority pr) limit w =
    (Returned (drop (Z.to_nat (- limit)) (spec_filter et pr (buffer w))), w).
Proof.
  intros Hl. rewrite get_events_spec_filter. now rewrite py_slice_from_pos by lia.
Qed.

Lemma get_events_negative_limit_witness :
  -1 < 0 /\
  get_events (opt_type None) (opt_priority None) (-1) world_three
    = (Returned [ev_alert; ev_breach], world_three).
Proof.
  exact (conj eq_refl (get_events_negative_limit None None (-1) world_three eq_refl)).
Defined.

(** X16.  Whatever the limit, [get_events] returns buffered events only, in
    buffer order, each of the requested type and priority; and when the
    limit is at least the number of buffered events, it returns every
    buffered event of the requested type and priority. *)
Theorem get_events_sound_and_complete (et : option EventType) (pr : option EventPriority)
    (limit : Z) (w : World) :
  exists l : list Event,
    get_events (opt_type et) (opt_priority pr) limit w = (Returned l, w) /\
    l `sublist_of` buffer w /\
    (forall e, In e l ->
       In e (buffer w) /\
       (forall t, et = Some t -> event_type e = t) /\
       (forall p, pr = Some p -> priority e = p)) /\
    (Z.of_nat (length (buffer w)) <= limit ->
     forall e, In e (buffer w) ->
       (forall t, et = Some t -> event_type e = t) ->
       (forall p, pr = Some p -> priority e = p) ->
       In e l).
Proof.
  eexists. split; [apply get_events_spec_filter |].
  split; [etransitivity; [apply py_slice_from_sublist | apply spec_filter_sublist] |].
  split.
  - intros e Hin. apply spec_filter_In.
    eapply sublist_In; [apply py_slice_from_sublist | exact Hin].
  - intros Hbig e Hin Ht Hp.
    assert (Hall : py_slice_from (- limit) (spec_filter et pr (buffer w))
                   = spec_filter et pr (buffer w)).
    { pose proof (sublist_length _ _ (spec_filter_sublist et pr (buffer w))) as Hlen.
      destruct (Z.eq_dec limit 0) as [-> | Hnz]; [apply py_slice_from_zero |].
      rewrite py_slice_from_neg by lia. apply trailing_all. lia. }
    rewrite Hall. apply spec_filter_In. auto.
Qed.

Lemma get_events_sound_and_complete_witness :
  Z.of_nat (length (buffer world_three)) <= 100 /\
  In ev_alert (buffer world_three) /\
  exists l : list Event,
    get_events (opt_type (Some ALERT)) (opt_priority None) 100 world_three
      = (Returned l, world_three) /\
    In ev_alert l /\
    (forall e, In e l -> event_type e = ALERT).
Proof.
  assert (Hbig : Z.of_nat (length (buffer world_three)) <= 100) by (vm_compute; discriminate).
  assert (Hin : In ev_alert (buffer world_three)) by (right; left; reflexivity).
  destruct (get_events_sound_and_complete (Some ALERT) None 100 world_three)
    as (l & Hrun & _ & Hsound & Hcomplete).
  refine (conj Hbig (conj Hin (ex_intro _ l (conj Hrun (conj _ _))))).
  - apply (Hcomplete Hbig ev_alert Hin).
    + intros t [= <-]. reflexivity.
    + intros p Hp. discriminate Hp.
  - intros e He. destruct (Hsound e He) as (_ & Ht & _). now apply Ht.
Defined.

(** X17.  [get_detected_patterns] slices the log the same way: for a limit
    of at least 1 it returns the last [min(limit, count)] records, oldest
    first; for a limit of 0 it returns the whole log, not the empty list. *)
Theorem get_detected_patterns_slice (limit : Z) (w : World) :
  (0 < limit ->
     get_detected_patterns limit w =
       (Returned (trailing (Z.to_nat limit) (detected_patterns (self w))), w) /\
     length (trailing (Z.to_nat limit) (detected_patterns (self w)))
       = Nat.min (Z.to_nat limit) (length (detected_patterns (self w)))) /\
  get_detected_patterns 0 w = (Returned (detected_patterns (self w)), w).
Proof.
  unfold get_detected_patterns, bind, get_self, ret. cbn [fst snd]. split.
  - intros Hl. rewrite py_slice_from_neg by exact Hl.
    split; [reflexivity | apply trailing_length].
  - now rewrite py_slice_from_zero.
Qed.

Lemma get_detected_patterns_slice_witness :
  let w := run_calls [CallAdd ev_d; CallAdd ev_d] world_spike in
  0 < 1 /\
  map det_matching_events (detected_patterns (self w))
    = [["EVT_0001"; "EVT_0002"; "EVT_0005"];
       ["EVT_0001"; "EVT_0002"; "EVT_0005"; "EVT_0005"]] /\
  (exists l, get_detected_patterns 1 w = (Returned l, w) /\
             map det_matching_events l
               = [["EVT_0001"; "EVT_0002"; "EVT_0005"; "EVT_0005"]]) /\
  get_detected_patterns 0 w = (Returned (detected_patterns (self w)), w).
Proof.
  cbv zeta.
  destruct (get_detected_patterns_slice 1
              (run_calls [CallAdd ev_d; CallAdd ev_d] world_spike)) as [Hpos _].
  destruct (Hpos eq_refl) as [Hrun _].
  split; [reflexivity |]. split; [reflexivity |]. split.
  - eexists. split; [exact Hrun | reflexivity].
  - exact (proj2 (get_detected_patterns_slice 0
                    (run_calls [CallAdd ev_d; CallAdd ev_d] world_spike))).
Defined.

(* ===================================================================== *)
(** ** Failures inside a pass                                             *)
(* ===================================================================== *)

(** When the tests pass and the condition returns true, a pattern's share of
    the pass is [_handle_pattern_match] on the whole candidate list. *)
Lemma check_pattern_detects (p : Pattern) (w w1 : World) (cands : list Event) :
  _get_recent_events (time_window p) w = (Returned cands, w1) ->
  structural_checks p cands = true ->
  condition p cands = Returned true ->
  _check_pattern p w =
    (action_outcome p cands,
     mk_World
       (set_statistics
          (set_patterns_detected (patterns_detected (stats w) + 1) (stats w))
          (set_detected_patterns
             (detected_patterns (self w) ++
                [mk_PatternDetection (pattern_id p) (name p) (clock w (ticks w1))
                                     (map event_id cands) (description p)])
             (self w)))
       (clock w) (S (ticks w1))
       (trace w ++ [CallCondition (pattern_id p) cands]
                ++ [Log INFO ("Pattern detected: " +:+ name p)]
                ++ [CallAction (pattern_id p) cands]
                ++ action_error_log p cands)).
Proof.
  intros Hrec Hchk Hcond.
  destruct (get_recent_events_world _ _ _ _ Hrec) as (Hself & Hclock & Htrace & _).
  rewrite check_pattern_run, Hrec, matches_structural by exact Hchk.
  rewrite call_condition_run, Hcond, handle_pattern_match_run.
  unfold stats. cbn [self clock ticks trace]. rewrite Hself, Hclock, Htrace.
  rewrite <- !app_assoc. reflexivity.
Qed.

(** X18.  An exception that an action raises and that derives from
    [Exception] stays inside the pass: the pattern's share of the pass
    returns normally, the detection is in the log and counted, and the last
    thing written is the error log line with the exception's text. *)
Theorem action_exception_is_contained (p : Pattern) (w w1 : World)
    (cands : list Event) (e : exn) :
  _get_recent_events (time_window p) w = (Returned cands, w1) ->
  structural_checks p cands = true ->
  condition p cands = Returned true ->
  action p cands = Raised e ->
  is_Exception e = true ->
  let w' := exec (_check_pattern p) w in
  eval (_check_pattern p) w = Returned tt /\
  detected_patterns (self w') =
    detected_patterns (self w) ++
      [mk_PatternDetection (pattern_id p) (name p) (clock w (ticks w1))
                           (map event_id cands) (description p)] /\
  patterns_detected (stats w') = patterns_detected (stats w) + 1 /\
  last (trace w') = Some (Log ERROR ("Error executing pattern action: " +:+ exn_str e)).
Proof.
  intros Hrec Hchk Hcond Hact Hexn w'. subst w'. unfold exec, eval.
  rewrite (check_pattern_detects p w w1 cands Hrec Hchk Hcond).
  unfold action_outcome, action_error_log, stats. rewrite Hact, Hexn.
  cbn [fst snd self trace set_statistics set_detected_patterns set_patterns_detected
       detected_patterns statistics patterns_detected].
  split; [reflexivity |]. split; [reflexivity |]. split; [reflexivity |].
  rewrite !app_assoc. apply last_snoc.
Qed.

Lemma action_exception_is_contained_witness :
  let w' := exec (_check_pattern pattern_failing_action)
                 (world_of (set_event_buffer (mk_deque 1000 [ev_b; ev_c; ev_d])
                                             agent_failing_action) clock_8) in
  eval (_check_pattern pattern_failing_action)
       (world_of (set_event_buffer (mk_deque 1000 [ev_b; ev_c; ev_d])
                                   agent_failing_action) clock_8) = Returned tt /\
  map det_matching_events (detected_patterns (self w'))
    = [["EVT_0001"; "EVT_0002"; "EVT_0005"]] /\
  last (trace w') = Some (Log ERROR "Error executing pattern action: boom").
Proof.
  destruct (action_exception_is_contained pattern_failing_action
              (world_of (set_event_buffer (mk_deque 1000 [ev_b; ev_c; ev_d])
                                          agent_failing_action) clock_8)
              (ticked (world_of (set_event_buffer (mk_deque 1000 [ev_b; ev_c; ev_d])
                                                  agent_failing_action) clock_8))
              [ev_b; ev_c; ev_d] (UserException "boom")
              eq_refl eq_refl eq_refl eq_refl eq_refl)
    as (Hret & Hlog & _ & Hlast).
  cbv zeta. split; [exact Hret |]. split; [| exact Hlast].
  rewrite Hlog. reflexivity.
Defined.

(** X19.  An exception that an action raises and that does not derive from
    [Exception] (KeyboardInterrupt, SystemExit) leaves the pass; the
    detection it interrupts is not rolled back: the record stays in the log
    and stays counted, and no error line is written. *)
Theorem action_base_exception_escapes (p : Pattern) (w w1 : World)
    (cands : list Event) (e : exn) :
  _get_recent_events (time_window p) w = (Returned cands, w1) ->
  structural_checks p cands = true ->
  condition p cands = Returned true ->
  action p cands = Raised e ->
  is_Exception e = false ->
  let w' := exec (_check_pattern p) w in
  eval (_check_pattern p) w = Raised e /\
  detected_patterns (self w') =
    detected_patterns (self w) ++
      [mk_PatternDetection (pattern_id p) (name p) (clock w (ticks w1))
                           (map event_id cands) (description p)] /\
  patterns_detected (stats w') = patterns_detected (stats w) + 1 /\
  last (trace w') = Some (CallAction (pattern_id p) cands).
Proof.
  intros Hrec Hchk Hcond Hact Hexn w'. subst w'. unfold exec, eval.
  rewrite (check_pattern_detects p w w1 cands Hrec Hchk Hcond).
  unfold action_outcome, action_error_log, stats. rewrite Hact, Hexn.
  cbn [fst snd self trace set_statistics set_detected_patterns set_patterns_detected
       detected_patterns statistics patterns_detected].
  split; [reflexivity |]. split; [reflexivity |]. split; [reflexivity |].
  rewrite app_nil_r, !app_assoc. apply last_snoc.
Qed.

Lemma action_base_exception_escapes_witness :
  let p := mk_Pattern "interrupt_01" "Interrupted" [SENSOR_READING] (minutes 5)
             (fun _ => Returned true)
             (fun _ => Raised (UserBaseException "KeyboardInterrupt"))
             "Action that is interrupted" in
  let w' := exec (_check_pattern p) world_spike in
  eval (_check_pattern p) world_spike = Raised (UserBaseException "KeyboardInterrupt") /\
  map det_matching_events (detected_patterns (self w')) = [["EVT_0001"; "EVT_0002"]] /\
  patterns_detected (stats w') = 1.
Proof.
  cbv zeta.
  destruct (action_base_exception_escapes
              (mk_Pattern "interrupt_01" "Interrupted" [SENSOR_READING] (minutes 5)
                 (fun _ => Returned true)
                 (fun _ => Raised (UserBaseException "KeyboardInterrupt"))
                 "Action that is interrupted")
              world_spike (ticked world_spike) [ev_b; ev_c]
              (UserBaseException "KeyboardInterrupt")
              eq_refl eq_refl eq_refl eq_refl eq_refl)
    as (Hret & Hlog & Hcount & _).
  split; [exact Hret |]. split; [rewrite Hlog; reflexivity | exact Hcount].
Defined.

Lemma matches_rejects_without_raising (p : Pattern) (events : list Event) (w : World) :
  event_types p <> [] ->
  structural_checks p events = false ->
  matches p events w = (Returned false, w).
Proof.
  intros Hne Hchk. rewrite matches_run. unfold structural_checks in Hchk.
  destruct (length events <? length (event_types p))%nat eqn:Elen; [reflexivity |].
  rewrite ?Elen in Hchk.
  destruct (last events) as [e_last |] eqn:Hlast.
  - destruct (head events) as [e_first |] eqn:Hhead.
    + destruct (timestamp e_last - timestamp e_first >? time_window p) eqn:Egt;
        [reflexivity |].
      rewrite ?Egt in Hchk. cbn [negb andb] in Hchk. now rewrite Hchk.
    + destruct events; [discriminate Hlast | discriminate Hhead].
  - assert (events = []) as ->.
    { destruct events as [| e l]; [reflexivity |].
      rewrite last_cons in Hlast. destruct (last l); discriminate. }
    apply Nat.ltb_ge in Elen. cbn in Elen.
    destruct (event_types p); [congruence | cbn in Elen; lia].
Qed.

Lemma check_pattern_returns (p : Pattern) (w : World) :
  well_behaved (clock w) p -> eval (_check_pattern p) w = Returned tt.
Proof.
  intros (Hne & Hcond & Hact & Hok). unfold eval. rewrite check_pattern_run.
  assert (Hcands : exists cands w1,
             _get_recent_events (time_window p) w = (Returned cands, w1)).
  { destruct (buffer w) as [| e l] eqn:Hbuf.
    - exists [], w. now apply get_recent_events_empty.
    - eexists _, _. apply get_recent_events_run; [rewrite Hbuf; discriminate | apply Hok]. }
  destruct Hcands as (cands & w1 & ->).
  destruct (structural_checks p cands) eqn:Hchk.
  - rewrite matches_structural by exact Hchk. rewrite call_condition_run.
    destruct (Hcond cands) as [[|] ->]; [| reflexivity].
    rewrite handle_pattern_match_run. cbn [fst]. unfold action_outcome.
    destruct (action p cands) as [[] | e] eqn:Ha; [reflexivity |].
    now rewrite (Hact cands e Ha).
  - now rewrite matches_rejects_without_raising.
Qed.

Lemma for_each_returns (l : list Pattern) :
  forall w : World,
    (forall p, In p l -> well_behaved (clock w) p) ->
    eval (for_each l _check_pattern) w = Returned tt.
Proof.
  induction l as [| p l IH]; intros w Hall; [reflexivity |].
  pose proof (check_pattern_returns p w (Hall p (or_introl eq_refl))) as Hp.
  pose proof (keeps_frame_check_pattern p w) as (_ & _ & _ & _ & _ & _ & Hclock).
  unfold eval, exec in *. cbn [for_each]. unfold bind.
  destruct (_check_pattern p w) as [[[] | e] w1]; cbn [fst snd] in *; [| discriminate].
  apply IH. intros q Hq. rewrite Hclock. apply Hall. now right.
Qed.

(** X20.  Provided conditions and actions do not call back into the agent:
    [add_event] returns normally whenever every registered pattern has a
    non-empty type sequence, a condition that returns, an action that raises
    nothing but exceptions deriving from [Exception], and a window whose
    cutoff is an instant that [datetime] can represent at every reading of
    the clock. *)
Theorem add_event_returns (e : Event) (w : World) :
  (forall p, In p (dict_values (patterns (self w))) -> well_behaved (clock w) p) ->
  eval (add_event e) w = Returned tt.
Proof.
  intros Hall.
  destruct (add_event_split e w) as (w0 & Hrun & _ & Hpat & _ & _ & _ & Hclock & _).
  unfold eval. rewrite Hrun.
  unfold _check_patterns, bind, get_self. cbn [fst snd].
  apply for_each_returns. intros p Hp. rewrite Hpat in Hp. rewrite Hclock. now apply Hall.
Qed.

Lemma add_event_returns_witness :
  (forall p, In p (dict_values (patterns (self world_failing_action))) ->
             well_behaved (clock world_failing_action) p) /\
  eval (add_event ev_d) world_failing_action = Returned tt.
Proof.
  assert (Hall : forall p, In p (dict_values (patterns (self world_failing_action))) ->
                           well_behaved (clock world_failing_action) p).
  { intros p [<- | [<- | []]].
    - split; [discriminate |]. split; [intros; eexists; reflexivity |].
      split; [intros events e [= <-]; reflexivity | intros n; reflexivity].
    - split; [discriminate |]. split.
      + intros events. cbn. unfold temperature_spike_condition.
        destruct (length events <? 2)%nat; eexists; reflexivity.
      + split; [intros events e H; discriminate H | intros n; reflexivity]. }
  exact (conj Hall (add_event_returns ev_d world_failing_action Hall)).
Defined.

Lemma filter_none {A} (P : A -> Prop) `{!forall x, Decision (P x)} (l : list A) :
  (forall x, In x l -> ~ P x) -> filter P l = [].
Proof.
  induction l as [| x l IH]; intros Hall; [reflexivity |].
  rewrite filter_cons_False by (apply Hall; now left).
  apply IH. intros y Hy. apply Hall. now right.
Qed.

(** X21.  A registered pattern with an empty type sequence does not just
    never match: when it stands first in the registry, its cutoff
    [now - window] is an instant that [datetime] can represent, and every
    buffered event, the new one included, has a timestamp before that
    cutoff, [add_event] raises IndexError to its caller, after having
    counted the event. *)
Theorem add_event_index_error (e : Event) (w : World) (k : string) (p : Pattern)
    (rest : list (string * Pattern)) :
  patterns (self w) = (k, p) :: rest ->
  event_types p = [] ->
  datetime_ok (clock w (ticks w) - time_window p) = true ->
  (forall ev, In ev (buffer (exec (add_event e) w)) ->
              timestamp ev < clock w (ticks w) - time_window p) ->
  eval (add_event e) w = Raised (IndexError "list index out of range") /\
  total_events (stats (exec (add_event e) w)) = total_events (stats w) + 1.
Proof.
  intros Hpat Hnil Hok Hold.
  destruct (add_event_effect e w) as (Hbuf' & _ & Htot & _).
  split; [| exact Htot].
  destruct (add_event_split e w) as (w0 & Hrun & Hbuf & Hpat0 & _ & _ & _ & Hclock & Hticks & _).
  unfold eval. rewrite Hrun.
  unfold _check_patterns, bind, get_self. cbn [fst snd].
  rewrite Hpat0, Hpat. cbn [dict_values map snd].
  assert (Hcands : exists w1, _get_recent_events (time_window p) w0 = (Returned [], w1)).
  { destruct (buffer w0) as [| x l] eqn:Hb0.
    - exists w0. now apply get_recent_events_empty.
    - eexists. rewrite get_recent_events_run;
        [| rewrite Hb0; discriminate | rewrite Hclock, Hticks; exact Hok].
      rewrite filter_none; [reflexivity |].
      intros ev Hev. rewrite Hclock, Hticks.
      assert (Hin : In ev (buffer (exec (add_event e) w))).
      { unfold buffer in *. rewrite Hbuf', <- Hbuf. exact Hev. }
      specialize (Hold ev Hin). lia. }
  destruct Hcands as (w1 & Hrec).
  erewrite for_each_raises; [reflexivity |].
  rewrite check_pattern_run, Hrec, matches_empty_types by exact Hnil. reflexivity.
Qed.

Lemma add_event_index_error_witness :
  patterns (self world_void) = [("void_01", pattern_void)] /\
  event_types pattern_void = [] /\
  timestamp ev_a < clock world_void (ticks world_void) - time_window pattern_void /\
  eval (add_event ev_a) world_void = Raised (IndexError "list index out of range") /\
  total_events (stats (exec (add_event ev_a) world_void)) = 1.
Proof.
  assert (Hold : forall ev, In ev (buffer (exec (add_event ev_a) world_void)) ->
                            timestamp ev < clock world_void (ticks world_void)
                                           - time_window pattern_void).
  { intros ev Hev. vm_compute in Hev. destruct Hev as [<- | []]. reflexivity. }
  destruct (add_event_index_error ev_a world_void "void_01" pattern_void []
              eq_refl eq_refl eq_refl Hold) as [Hraise Htot].
  exact (conj eq_refl (conj eq_refl (conj eq_refl (conj Hraise Htot)))).
Defined.

(** X22.  Provided conditions and actions do not call back into the agent:
    on an agent of capacity at least 1 the event just added is the newest of
    the buffer when [add_event] returns or raises; on an agent of capacity 0
    the buffer stays empty, though the event is counted. *)
Theorem add_event_newest_last (e : Event) (w : World) :
  let w' := exec (add_event e) w in
  (0 < maxlen (event_buffer (self w)) -> last (buffer w') = Some e) /\
  (maxlen (event_buffer (self w)) <= 0 -> buffer w = [] ->
     buffer w' = [] /\ total_events (stats w') = total_events (stats w) + 1).
Proof.
  intros w'. subst w'.
  destruct (add_event_effect e w) as (Hbuf & _ & Htot & _).
  unfold buffer. rewrite Hbuf. unfold deque_append. cbn [items]. split.
  - intros Hcap. destruct (_ <? _) eqn:Efull; [| apply last_snoc].
    destruct (items (event_buffer (self w))) as [| x l] eqn:Hitems.
    + cbn in Efull. apply Z.ltb_lt in Efull. lia.
    + cbn [app tail]. apply last_snoc.
  - intros Hcap Hempty. unfold buffer in Hempty. rewrite Hempty. cbn [app length].
    destruct (Z.ltb_spec (maxlen (event_buffer (self w))) (Z.of_nat 1)); [| lia].
    split; [reflexivity | exact Htot].
Qed.

Lemma add_event_newest_last_witness :
  0 < maxlen (event_buffer (self world_spike)) /\
  last (buffer (exec (add_event ev_d) world_spike)) = Some ev_d /\
  maxlen (event_buffer (self (world_of (mk_CEPAgent (mk_deque 0 []) [] []
                                          (mk_Statistics 0 ∅ ∅ 0) false) clock_8))) <= 0 /\
  buffer (exec (add_event ev_d)
               (world_of (mk_CEPAgent (mk_deque 0 []) [] []
                            (mk_Statistics 0 ∅ ∅ 0) false) clock_8)) = [].
Proof.
  assert (Hzero : maxlen (event_buffer
                            (self (world_of (mk_CEPAgent (mk_deque 0 []) [] []
                                               (mk_Statistics 0 ∅ ∅ 0) false) clock_8))) <= 0)
    by (vm_compute; discriminate).
  refine (conj eq_refl (conj _ (conj Hzero _))).
  - exact (proj1 (add_event_newest_last ev_d world_spike) eq_refl).
  - exact (proj1 (proj2 (add_event_newest_last ev_d
                           (world_of (mk_CEPAgent (mk_deque 0 []) [] []
                                        (mk_Statistics 0 ∅ ∅ 0) false) clock_8))
                    Hzero eq_refl)).
Defined.

(* ===================================================================== *)
(** ** The example condition on temperatures                              *)
(* ===================================================================== *)

Lemma fold_left_max_bounds (l : list Z) :
  forall x, x <= fold_left Z.max l x /\
            (forall y, In y l -> y <= fold_left Z.max l x) /\
            In (fold_left Z.max l x) (x :: l).
Proof.
  induction l as [| a l IH]; intros x; cbn [fold_left].
  - split; [lia |]. split; [intros y [] | now left].
  - destruct (IH (Z.max x a)) as (Hge & Hall & Hin).
    split; [lia |]. split.
    + intros y [<- | Hy]; [lia | now apply Hall].
    + destruct Hin as [Heq | Hin]; [| right; now right].
      rewrite <- Heq. destruct (Z.max_spec x a) as [[_ ->] | [_ ->]];
        [right; now left | now left].
Qed.

Lemma fold_left_min_bounds (l : list Z) :
  forall x, fold_left Z.min l x <= x /\
            (forall y, In y l -> fold_left Z.min l x <= y) /\
            In (fold_left Z.min l x) (x :: l).
Proof.
  induction l as [| a l IH]; intros x; cbn [fold_left].
  - split; [lia |]. split; [intros y [] | now left].
  - destruct (IH (Z.min x a)) as (Hle & Hall & Hin).
    split; [lia |]. split.
    + intros y [<- | Hy]; [lia | now apply Hall].
    + destruct Hin as [Heq | Hin]; [| right; now right].
      rewrite <- Heq. destruct (Z.min_spec x a) as [[_ ->] | [_ ->]];
        [now left | right; now left].
Qed.

(** X23.  [temperature_spike_condition] never raises, and it returns true
    exactly when two of the events it is given have temperatures more than
    10 apart, an event without a "temperature" entry counting as 0; in
    particular it is false on fewer than two events, it does not depend on
    the order of the events, and more events never turn it false. *)
Theorem temperature_spike_iff (events : list Event) :
  (exists b, temperature_spike_condition events = Returned b) /\
  (temperature_spike_condition events = Returned true <->
   exists e1 e2, In e1 events /\ In e2 events /\
                 temperature_of e1 - temperature_of e2 > 10).
Proof.
  unfold temperature_spike_condition.
  change (fun e : Event => default 0 (dict_getitem "temperature" (data e)))
    with temperature_of.
  split; [destruct (length events <? 2)%nat; eexists; reflexivity |].
  destruct events as [| a l]; [cbn; split; [discriminate | intros (e1 & _ & [] & _)] |].
  cbn [map py_max py_min].
  destruct (fold_left_max_bounds (map temperature_of l) (temperature_of a))
    as (Hmax_a & Hmax_l & Hmax_in).
  destruct (fold_left_min_bounds (map temperature_of l) (temperature_of a))
    as (Hmin_a & Hmin_l & Hmin_in).
  assert (Hmember : forall v, In v (temperature_of a :: map temperature_of l) ->
                              exists ev, In ev (a :: l) /\ temperature_of ev = v).
  { intros v [<- | Hv]; [exists a; split; [now left | reflexivity] |].
    apply in_map_iff in Hv as (ev & Hev & Hin). exists ev. split; [now right | exact Hev]. }
  assert (Hbound : forall ev, In ev (a :: l) ->
             fold_left Z.min (map temperature_of l) (temperature_of a) <= temperature_of ev
             /\ temperature_of ev <= fold_left Z.max (map temperature_of l) (temperature_of a)).
  { intros ev [<- | Hev]; [lia |].
    split; [apply Hmin_l | apply Hmax_l]; now apply in_map. }
  split.
  - intros Htrue.
    destruct (length (a :: l) <? 2)%nat; [discriminate |].
    injection Htrue as Hgt. apply Z.gtb_lt in Hgt.
    destruct (Hmember _ Hmax_in) as (e1 & He1 & Ht1).
    destruct (Hmember _ Hmin_in) as (e2 & He2 & Ht2).
    exists e1, e2. repeat split; [exact He1 | exact He2 | lia].
  - intros (e1 & e2 & He1 & He2 & Hdiff).
    destruct (Hbound e1 He1) as [_ H1]. destruct (Hbound e2 He2) as [H2 _].
    destruct l as [| b l'].
    + destruct He1 as [<- | []]. destruct He2 as [<- | []]. lia.
    + cbn [length Nat.ltb Nat.leb]. f_equal. apply Z.gtb_lt. lia.
Qed.

Lemma temperature_spike_iff_witness :
  In ev_b [ev_b; ev_c; ev_d] /\ In ev_c [ev_b; ev_c; ev_d] /\
  temperature_of ev_b - temperature_of ev_c > 10 /\
  temperature_spike_condition [ev_b; ev_c; ev_d] = Returned true.
Proof.
  assert (H1 : In ev_b [ev_b; ev_c; ev_d]) by (left; reflexivity).
  assert (H2 : In ev_c [ev_b; ev_c; ev_d]) by (right; left; reflexivity).
  assert (H3 : temperature_of ev_b - temperature_of ev_c > 10) by reflexivity.
  refine (conj H1 (conj H2 (conj H3 _))).
  apply (proj2 (temperature_spike_iff [ev_b; ev_c; ev_d])).
  exists ev_b, ev_c. exact (conj H1 (conj H2 H3)).
Defined.

(* ===================================================================== *)
(** ** The dashboard's tally                                              *)
(* ===================================================================== *)

Lemma dict_total_cons (k : string) (v : Z) (d : list (string * Z)) :
  dict_total ((k, v) :: d) = v + dict_total d.
Proof. reflexivity. Qed.

Lemma dict_total_incr (k : string) (d : list (string * Z)) :
  dict_total (dict_setitem k (default 0 (dict_getitem k d) + 1) d) = dict_total d + 1.
Proof.
  induction d as [| [k' v'] d IH]; [cbn; lia |].
  cbn [dict_setitem dict_getitem].
  destruct (String.eqb k' k); rewrite !dict_total_cons; [cbn; lia |].
  rewrite IH. lia.
Qed.

Lemma dict_get_incr (k k0 : string) (d : list (string * Z)) :
  default 0 (dict_getitem k0 (dict_setitem k (default 0 (dict_getitem k d) + 1) d))
  = default 0 (dict_getitem k0 d) + (if decide (k = k0) then 1 else 0).
Proof.
  destruct (decide (k = k0)) as [<- | Hne].
  - now rewrite dict_getitem_setitem.
  - rewrite dict_getitem_setitem_ne by congruence. lia.
Qed.

Lemma count_name_cons (n : string) (d : PatternDetection) (l : list PatternDetection) :
  count_name n (d :: l) = (if decide (det_pattern_name d = n) then 1 else 0) + count_name n l.
Proof.
  unfold count_name. destruct (decide (det_pattern_name d = n)) as [Heq | Hne].
  - rewrite filter_cons_True by exact Heq. cbn [length]. lia.
  - rewrite filter_cons_False by exact Hne. lia.
Qed.

Lemma tally_fold (detected : list PatternDetection) :
  forall counts : list (string * Z),
    let r := fold_left
               (fun counts d =>
                  dict_setitem (det_pattern_name d)
                               (default 0 (dict_getitem (det_pattern_name d) counts) + 1)
                               counts)
               detected counts in
    dict_total r = dict_total counts + Z.of_nat (length detected) /\
    (forall n, default 0 (dict_getitem n r)
               = default 0 (dict_getitem n counts) + count_name n detected) /\
    (NoDup (dict_keys counts) -> NoDup (dict_keys r)).
Proof.
  induction detected as [| d l IH]; intros counts; cbn [fold_left].
  - cbn. repeat split; [lia | intros n; unfold count_name; cbn; lia | auto].
  - destruct (IH (dict_setitem (det_pattern_name d)
                    (default 0 (dict_getitem (det_pattern_name d) counts) + 1) counts))
      as (Htot & Hget & Hnd).
    split; [rewrite Htot, dict_total_incr; cbn [length]; lia |]. split.
    + intros n. rewrite Hget, dict_get_incr, count_name_cons. lia.
    + intros H. apply Hnd. now apply dict_setitem_NoDup.
Qed.

(** X24.  The tally that the dashboard charts counts every detection it was
    given exactly once: the count kept under a pattern name is the number of
    those detections with that name, no name has two entries, and the counts
    add up to the number of detections. *)
Theorem pattern_counts_tally (detected : list PatternDetection) :
  dict_total (pattern_counts detected) = Z.of_nat (length detected) /\
  (forall n, default 0 (dict_getitem n (pattern_counts detected)) = count_name n detected) /\
  NoDup (dict_keys (pattern_counts detected)).
Proof.
  destruct (tally_fold detected []) as (Htot & Hget & Hnd).
  split; [exact Htot |]. split; [exact Hget |]. apply Hnd. constructor.
Qed.

(* ===================================================================== *)
(** ** The order of a pass                                                *)
(* ===================================================================== *)

Lemma condition_calls_app (a b : list Effect) :
  condition_calls (a ++ b) = condition_calls a ++ condition_calls b.
Proof.
  induction a as [| x a IH]; [reflexivity |].
  destruct x; cbn; rewrite IH; reflexivity.
Qed.

Lemma condition_calls_error_log (p : Pattern) (events : list Event) :
  condition_calls (action_error_log p events) = [].
Proof.
  unfold action_error_log. destruct (action p events) as [u | e]; [reflexivity |].
  destruct (is_Exception e); reflexivity.
Qed.

Lemma check_pattern_trace (p : Pattern) (w : World) :
  exists new : list Effect,
    trace (exec (_check_pattern p) w) = trace w ++ new /\
    (condition_calls new = [] \/ condition_calls new = [pattern_id p]).
Proof.
  unfold exec. rewrite check_pattern_run.
  destruct (_get_recent_events (time_window p) w) as [[cands | e] w1] eqn:Hrec;
    destruct (get_recent_events_world _ _ _ _ Hrec) as (_ & _ & Htrace & _).
  - destruct (matches_cases p cands w1) as [[Hchk Hrun] | [Hchk (r & Hrun & Hr)]];
      rewrite Hrun.
    + rewrite call_condition_run.
      destruct (condition p cands) as [[|] | x].
      * rewrite handle_pattern_match_run. cbn [snd trace]. rewrite Htrace.
        rewrite <- !app_assoc. eexists. split; [reflexivity |].
        right. rewrite !condition_calls_app, condition_calls_error_log. reflexivity.
      * cbn [snd trace]. rewrite Htrace. eexists. split; [reflexivity | now right].
      * cbn [snd trace]. rewrite Htrace. eexists. split; [reflexivity | now right].
    + exists []. rewrite app_nil_r.
      destruct r as [[|] | x]; [congruence | |]; cbn [snd]; auto.
  - exists []. rewrite app_nil_r. cbn [snd]. auto.
Qed.

Lemma for_each_trace (l : list Pattern) :
  forall w : World,
    exists new : list Effect,
      trace (exec (for_each l _check_pattern) w) = trace w ++ new /\
      condition_calls new `sublist_of` map pattern_id l.
Proof.
  induction l as [| p l IH]; intros w.
  - exists []. rewrite app_nil_r. split; [reflexivity | constructor].
  - destruct (check_pattern_trace p w) as (new1 & Ht1 & Hc1).
    assert (Hsub1 : condition_calls new1 `sublist_of` [pattern_id p]).
    { destruct Hc1 as [-> | ->]; [apply sublist_nil_l | reflexivity]. }
    unfold exec in *. cbn [for_each]. unfold bind.
    destruct (_check_pattern p w) as [[[] | e] w1]; cbn [snd] in *.
    + destruct (IH w1) as (new2 & Ht2 & Hc2).
      exists (new1 ++ new2). rewrite Ht2, Ht1, app_assoc. split; [reflexivity |].
      rewrite condition_calls_app. cbn [map].
      change (pattern_id p :: map pattern_id l) with ([pattern_id p] ++ map pattern_id l).
      now apply sublist_app.
    + exists new1. split; [exact Ht1 |]. cbn [map].
      change (pattern_id p :: map pattern_id l) with ([pattern_id p] ++ map pattern_id l).
      rewrite <- (app_nil_r (condition_calls new1)).
      apply sublist_app; [exact Hsub1 | apply sublist_nil_l].
Qed.

(** X25.  One [add_event] only appends to the trace, and the conditions it
    calls are those of registered patterns, each at most once and in the
    order of registration. *)
Theorem add_event_calls_conditions_in_order (e : Event) (w : World) :
  exists new : list Effect,
    trace (exec (add_event e) w) = trace w ++ new /\
    condition_calls new `sublist_of` map pattern_id (dict_values (patterns (self w))).
Proof.
  destruct (add_event_split e w)
    as (w0 & Hrun & _ & Hpat & _ & _ & _ & _ & _ & Htrace).
  unfold exec. rewrite Hrun.
  unfold _check_patterns, bind, get_self. cbn [fst snd].
  destruct (for_each_trace (dict_values (patterns (self w0))) w0) as (new & Ht & Hc).
  unfold exec in Ht. rewrite Ht, Htrace, <- app_assoc, Hpat in *.
  eexists. split; [reflexivity |]. cbn [app condition_calls]. exact Hc.
Qed.
